(** * Simulation course: projectile flight (lab01) and heat conduction (lab02)

    A shallow embedding of the two numerical engines of the repository and
    of the code around them:

    - [Projectile.simulate]   from [lab01/backend/main.go], the forward-Euler
      integrator of a projectile under gravity and quadratic drag, and
      [ProjectileHandler.simulateHandler], the HTTP handler in front of it;
    - [Heat.simulateHeatConduction] from the lab02 backend, the explicit
      finite-difference solver of the 1D heat equation, and the defaults of
      its WebSocket handler ([HeatHandler]);
    - [Heatmap], the colour scale of the lab02 frontend.

    Go's [float64] is IEEE 754 binary64 with round-to-nearest-even, which is
    exactly Rocq's primitive type [float]; every arithmetic operation of the
    sources is therefore written with the primitive operation of the same
    name.  (Go allows a compiler to fuse [x*y + z] into one rounding; the
    model rounds every operation separately, as the amd64 compiler does.)
    Go's [int] is taken to be 64 bits wide and is modelled by [Z] with
    the wrap-around written out where an overflow can happen.  Whether
    [make] obtains the memory it asks for is left to the runtime: it is a
    parameter of the solver, [allocates]. *)

From Stdlib Require Import ZArith List String Floats Lia Bool.
From Stdlib Require Uint63.
From stdpp Require Import base list.

Set Warnings "-inexact-float".

(** ** The part of Go the two programs rely on *)

Module Go.
Local Open Scope float_scope.

(** *** Outcome of a computation that may panic at run time *)

Inductive go (A : Type) : Type :=
  | Ret (a : A)
  | Panic.
Arguments Ret {A} a.
Arguments Panic {A}.

Definition bind {A B : Type} (m : go A) (k : A -> go B) : go B :=
  match m with
  | Ret a => k a
  | Panic => Panic
  end.

Notation "'let!' x ':=' m 'in' k" := (bind m (fun x => k))
  (at level 10, x name, m at level 100, k at level 200).

(** *** Integers *)

Definition min_int : Z := - 2 ^ 63.
Definition max_int : Z := 2 ^ 63 - 1.

(** Two's-complement wrap-around of the 64-bit [int]. *)
Definition wrap (z : Z) : Z := (z + 2 ^ 63) mod 2 ^ 64 - 2 ^ 63.

(** *** [float64] to integer *)

(** The exact value of a finite float, truncated toward zero. *)
Definition SFtrunc (x : spec_float) : option Z :=
  match x with
  | S754_zero _ => Some 0%Z
  | S754_finite s m e => Some (cond_Zopp s (Z.shiftl (Zpos m) e))
  | S754_infinity _ | S754_nan => None
  end.

(** The exact value of a finite float, rounded toward minus infinity. *)
Definition SFfloor (x : spec_float) : option Z :=
  match x with
  | S754_zero _ => Some 0%Z
  | S754_finite false m e => Some (Z.shiftl (Zpos m) e)
  | S754_finite true m e => Some (- Z.shiftl (Zpos m) e - (if Z.shiftl (Z.shiftl (Zpos m) e) (- e) =? Zpos m then 0 else 1))%Z
  | S754_infinity _ | S754_nan => None
  end.

Section Conversion.
(** The conversion [int(f)] of a [float64] truncates toward zero.  When the
    value does not fit (or is NaN) the conversion still succeeds, with a
    result that the language leaves to the implementation: [int_oob]. *)
Variable int_oob : float -> Z.

Definition int_of_float64 (f : float) : Z :=
  match SFtrunc (Prim2SF f) with
  | Some z => if (min_int <=? z)%Z && (z <=? max_int)%Z then z else int_oob f
  | None => int_oob f
  end.
End Conversion.

(** What amd64 gives for a conversion out of range (the "integer indefinite"
    value of CVTTSD2SQ). *)
Definition int_oob_amd64 (_ : float) : Z := min_int.

(** *** [math.Ceil] *)

Definition float_of_Z (z : Z) : float := of_uint63 (Uint63.of_Z z).

(** Least integral value not below [x]; zeros, infinities and NaN are returned
    as they are, and so is every float without fractional bits.  A negative
    value above -1 gives -0. *)
Definition Ceil (x : float) : float :=
  match Prim2SF x with
  | S754_finite s m (Zneg k) =>
      let q := Z.shiftr (Zpos m) (Zpos k) in
      if s then (if (q =? 0)%Z then neg_zero else - float_of_Z q)
      else if (Z.shiftl q (Zpos k) =? Zpos m)%Z then float_of_Z q
           else float_of_Z (q + 1)
  | _ => x
  end.

(** [math.Pi] as a [float64]. *)
Definition Pi : float := 3.141592653589793.

(** *** Slices of [float64] *)

Section Allocation.
(** [make([]float64, n)] panics on a negative length, and also when the
    runtime does not provide a slice of that length (a length out of range,
    or no memory left): [allocates n] says whether it does. *)
Variable allocates : Z -> bool.

Definition make (n : Z) : go (list float) :=
  if (n <? 0)%Z then Panic
  else if allocates n then Ret (replicate (Z.to_nat n) 0)
  else Panic.
End Allocation.

(** On amd64 a slice of more than [2^48] bytes is out of range; below that
    the examples take the memory to be there. *)
Definition allocates_amd64 (n : Z) : bool := (n * 8 <=? 2 ^ 48)%Z.

Definition len (s : list float) : Z := Z.of_nat (length s).

Definition index (s : list float) (i : Z) : go float :=
  if (i <? 0)%Z then Panic
  else match s !! Z.to_nat i with
       | Some v => Ret v
       | None => Panic
       end.

Definition store (s : list float) (i : Z) (v : float) : go (list float) :=
  if (0 <=? i)%Z && (i <? len s)%Z then Ret (<[Z.to_nat i := v]> s) else Panic.

(** [copy(dst, src)] overwrites the first [min(len dst, len src)] cells. *)
Definition copy (dst src : list float) : list float :=
  take (length dst) src ++ drop (length src) dst.

(** A float that is a number. *)
Definition not_nan (x : float) : Prop := Prim2SF x <> S754_nan.

End Go.

(** ** lab01: the projectile integrator ([lab01/backend/main.go]) *)

Module Projectile.
Import Go.
Local Open Scope float_scope.

(** The physical constants.  They are untyped constants in the source, so the
    compiler folds [0.5 * rho * Cd * area] exactly (to 0.00287875) and only
    then rounds it to a [float64]: [drag_factor]. *)
Definition g : float := 9.81.
Definition mass : float := 1.0.
Definition drag_factor : float := 0.00287875.

Record Point := mkPoint {
  X : float;
  Y : float;
  V : float;
  T : float
}.

Record SimulationRequest := mkRequest {
  V0 : float;
  Angle : float;
  H0 : float;
  Dt : float
}.

Record SimulationResponse := mkResponse {
  Trajectory : list Point;
  Range : float;
  MaxHeight : float;
  FinalVelocity : float;
  TimeOfFlight : float;
  SimulationSteps : Z
}.

(** The local variables of [simulate].  The trajectory is kept with its most
    recent point first; [respond] puts it back in order. *)
Record state := mkState {
  vx : float;
  vy : float;
  x : float;
  y : float;
  t : float;
  trajectory : list Point;
  maxHeight : float;
  steps : Z
}.

Definition speed (s : state) : float := sqrt (vx s * vx s + vy s * vy s).

Definition point_of (s : state) : Point :=
  {| X := x s; Y := y s; V := speed s; T := t s |}.

(** The accelerations of one step, with the branch for zero speed. *)
Definition acceleration (s : state) : float * float :=
  let v := speed s in
  let dragForce := drag_factor * v * v in
  let ax := - (dragForce / mass) * (vx s / v) in
  let ay := - g - (dragForce / mass) * (vy s / v) in
  if v =? 0 then (0, - g) else (ax, ay).

(** One pass through the body of the loop, up to and including [steps++]. *)
Definition body (dt : float) (s : state) : state :=
  let '(ax, ay) := acceleration s in
  let vx' := vx s + ax * dt in
  let vy' := vy s + ay * dt in
  let x' := x s + vx' * dt in
  let y' := y s + vy' * dt in
  {| vx := vx'; vy := vy'; x := x'; y := y'; t := t s + dt;
     trajectory := point_of s :: trajectory s;
     maxHeight := if maxHeight s <? y s then y s else maxHeight s;
     steps := steps s + 1 |}.

(** The loop [for y >= 0 { ...; if steps > 1000000 { break } }].  [None]
    means that the fuel ran out before the loop was left. *)
Fixpoint flight (fuel : nat) (dt : float) (s : state) : option state :=
  match fuel with
  | O => None
  | S fuel' =>
      if 0 <=? y s then
        let s' := body dt s in
        if (1000000 <? steps s')%Z then Some s' else flight fuel' dt s'
      else Some s
  end.

Definition respond (s : state) : SimulationResponse :=
  {| Trajectory := reverse (trajectory s);
     Range := x s;
     MaxHeight := maxHeight s;
     FinalVelocity := sqrt (vx s * vx s + vy s * vy s);
     TimeOfFlight := t s;
     SimulationSteps := steps s |}.

(** Fuel that the loop cannot exhaust (see [flight_terminates]). *)
Definition enough_fuel : nat := Z.to_nat 1000001.

Section Engine.
(** [math.Cos] and [math.Sin] of the Go library. *)
Variables Cos Sin : float -> float.

Definition launch (req : SimulationRequest) : state :=
  let angleRad := Angle req * Pi / 180 in
  {| vx := V0 req * Cos angleRad;
     vy := V0 req * Sin angleRad;
     x := 0;
     y := H0 req;
     t := 0;
     trajectory := [];
     maxHeight := H0 req;
     steps := 0 |}.

(** The state in which the loop is left. *)
Definition landing (fuel : nat) (req : SimulationRequest) : option state :=
  flight fuel (Dt req) (launch req).

Definition simulate_fuel (fuel : nat) (req : SimulationRequest)
  : option SimulationResponse :=
  option_map respond (landing fuel req).

Definition simulate (req : SimulationRequest) : option SimulationResponse :=
  simulate_fuel enough_fuel req.
End Engine.

(** The check of [simulateHandler] in front of [simulate]. *)
Definition accepted (req : SimulationRequest) : bool :=
  negb ((V0 req <=? 0) || (Angle req <? 0) || (90 <? Angle req)
        || (Dt req <=? 0)).

(** The numbers of a request are decoded from JSON, which has neither
    infinities nor NaN. *)
Definition decoded (req : SimulationRequest) : Prop :=
  is_finite (V0 req) = true /\ is_finite (Angle req) = true /\
  is_finite (H0 req) = true /\ is_finite (Dt req) = true.

(** Loop invariant: the counter counts the recorded points and stays within
    [bound]. *)
Definition counted (bound : Z) (s : state) : Prop :=
  steps s = Z.of_nat (length (trajectory s)) /\ (steps s <= bound)%Z.

(** Loop invariant for [maxHeight]: before the first point it is the current
    height; afterwards it is a number, bounds the recorded heights and is one
    of them, and the state is one step after the state of the last point. *)
Definition tracked (dt : float) (s : state) : Prop :=
  (trajectory s = [] /\ maxHeight s = y s) \/
  (not_nan (maxHeight s) /\
   Forall (fun p => (Y p <=? maxHeight s) = true) (trajectory s) /\
   Exists (fun p => Y p = maxHeight s) (trajectory s) /\
   exists sp, (0 <=? y sp) = true /\ s = body dt sp).

(** [math.Cos] and [math.Sin] at the one argument the examples below use:
    [math.Cos(0) = 1] and [math.Sin(0) = 0]. *)
Definition Cos_at_0 (a : float) : float := if a =? 0 then 1 else nan.
Definition Sin_at_0 (a : float) : float := if a =? 0 then 0 else nan.

End Projectile.


(** ** lab02: the heat-conduction solver (lab02 backend, [main.go]) *)

Module Heat.
Import Go.
Local Open Scope float_scope.

Record SimulationParams := mkParams {
  Length : float;
  TimeStep : float;
  SpaceStep : float;
  TotalTime : float;
  InitialTemp : float;
  LeftBoundary : float;
  RightBoundary : float;
  Alpha : float
}.

Record SimulationResult := mkResult {
  Temperatures : list float;
  Time : float;
  CenterTemp : float;
  Stable : bool
}.

(** The Courant number [r] of the source. *)
Definition courant (params : SimulationParams) : float :=
  Alpha params * TimeStep params / (SpaceStep params * SpaceStep params).

(** The value written to [Tnew[i]] by the finite-difference scheme. *)
Definition scheme (r Tprev Ti Tnext : float) : float :=
  Ti + r * (Tnext - 2 * Ti + Tprev).

(** The loop [for i := 1; i < n-1; i++ { Tnew[i] = ... }], from index [i] on,
    with [count] passes left. *)
Fixpoint stencil (count : nat) (i : Z) (r : float) (T Tnew : list float)
  : go (list float) :=
  match count with
  | O => Ret Tnew
  | S count' =>
      let! Ti := index T i in
      let! Tnext := index T (i + 1) in
      let! Tprev := index T (i - 1) in
      let! Tnew' := store Tnew i (scheme r Tprev Ti Tnext) in
      stencil count' (i + 1) r T Tnew'
  end.

(** The variables the time loop changes. *)
Record state := mkState {
  T : list float;
  Tnew : list float;
  currentTime : float;
  results : list SimulationResult
}.

(** The snapshot appended to [results]: a copy of [T].  (The memory for the
    copy is taken to be there: a program that runs out of it is stopped by
    the runtime and returns nothing.) *)
Definition snapshot (r : float) (centerIdx : Z) (T : list float) (time : float)
  : go SimulationResult :=
  let! c := index T centerIdx in
  Ret {| Temperatures := T; Time := time; CenterTemp := c;
         Stable := r <=? 0.5 |}.

Section Solver.
Variable params : SimulationParams.
Variables (n : Z) (r : float) (centerIdx steps : Z).

(** What one pass of the time loop does to the buffers and the clock. *)
Definition update (T Tnew : list float) : go (list float * list float) :=
  let! Tnew := stencil (Z.to_nat (n - 2)) 1 r T Tnew in
  let! Tnew := store Tnew 0 (LeftBoundary params) in
  let! Tnew := store Tnew (n - 1) (RightBoundary params) in
  Ret (copy T Tnew, Tnew).

(** The body of the time loop at loop counter [step]. *)
Definition time_step (step : Z) (s : state) : go state :=
  let! bufs := update (T s) (Tnew s) in
  let currentTime := currentTime s + TimeStep params in
  if (Z.rem step 10 =? 0)%Z || (step =? steps - 1)%Z then
    let! frame := snapshot r centerIdx (fst bufs) currentTime in
    Ret {| T := fst bufs; Tnew := snd bufs; currentTime := currentTime;
           results := results s ++ [frame] |}
  else
    Ret {| T := fst bufs; Tnew := snd bufs; currentTime := currentTime;
           results := results s |}.

(** [for step := 0; step < steps; step++], with [count] passes left. *)
Fixpoint time_loop (count : nat) (step : Z) (s : state) : go state :=
  match count with
  | O => Ret s
  | S count' =>
      let! s' := time_step step s in
      time_loop count' (step + 1) s'
  end.

(** The buffers and the clock after [k] passes of the time loop, without
    the bookkeeping of frames: [k] times [update] and [+= TimeStep]. *)
Fixpoint updates (k : nat) (T Tnew : list float) (time : float)
  : go (list float * list float * float) :=
  match k with
  | O => Ret (T, Tnew, time)
  | S k' =>
      let! before := updates k' T Tnew time in
      let! bufs := update (fst (fst before)) (snd (fst before)) in
      Ret (fst bufs, snd bufs, snd before + TimeStep params)
  end.

(** The two boundary cells of a grid hold the boundary temperatures (on a
    grid of one cell the right one wins). *)
Definition clamped (T : list float) : Prop :=
  len T = n /\
  T !! Z.to_nat (n - 1) = Some (RightBoundary params) /\
  ((2 <= n)%Z -> T !! 0%nat = Some (LeftBoundary params)).

(** The frame for loop counter [step] is the snapshot taken after
    [step + 1] passes, started from [T0], [Tnew0] at time [t0]. *)
Definition frame_of_step (T0 Tnew0 : list float) (t0 : float) (step : Z)
    (frame : SimulationResult) : Prop :=
  exists Tk Tnewk tk,
    updates (S (Z.to_nat step)) T0 Tnew0 t0 = Ret (Tk, Tnewk, tk) /\
    snapshot r centerIdx Tk tk = Ret frame.
End Solver.

(** The test of the sampling [if], on the loop counter. *)
Definition sampled (steps step : Z) : bool :=
  (Z.rem step 10 =? 0)%Z || (step =? steps - 1)%Z.

(** The loop counters among [from .. from+count-1] at which a frame is
    appended, in order. *)
Definition sampled_steps (steps from : Z) (count : nat) : list Z :=
  filter (fun step => Is_true (sampled steps step)) (seqZ from (Z.of_nat count)).

(** The reading of "after every 10th step and on the final step" that counts
    completed steps from 1: a frame after step number [k] when [k] is a
    multiple of 10 or the last. *)
Definition every_tenth_step (steps k : Z) : bool :=
  (Z.rem k 10 =? 0)%Z || (k =? steps)%Z.

Section Engine.
(** The platform's result of an [int] conversion out of range, whether the
    runtime allocates a slice of a given length, and the text [fmt] prints
    for the verb [%f]. *)
Variable int_oob : float -> Z.
Variable allocates : Z -> bool.
Variable format_f : float -> string.

Definition grid_size (params : SimulationParams) : Z :=
  wrap (int_of_float64 int_oob (Ceil (Length params / SpaceStep params)) + 1).

Definition step_count (params : SimulationParams) : Z :=
  int_of_float64 int_oob (TotalTime params / TimeStep params).

(** [fmt.Errorf("unstable parameters: r = %f > 0.5", r)] *)
Definition unstable (r : float) : string :=
  ("unstable parameters: r = " ++ format_f r ++ " > 0.5")%string.

(** The set-up before the time loop: the two buffers, the initial and
    boundary conditions and the frame of the initial state. *)
Definition initialize (params : SimulationParams) : go state :=
  let n := grid_size params in
  let r := courant params in
  let! T := make allocates n in
  let! Tnew := make allocates n in
  let T := fmap (fun _ => InitialTemp params) T in
  let! T := store T 0 (LeftBoundary params) in
  let! T := store T (n - 1) (RightBoundary params) in
  let centerIdx := Z.quot n 2 in
  let! first := snapshot r centerIdx T 0 in
  Ret {| T := T; Tnew := Tnew; currentTime := 0; results := [first] |}.

(** The state after the time loop. *)
Definition integrate (params : SimulationParams) : go state :=
  let n := grid_size params in
  let r := courant params in
  let! start := initialize params in
  let steps := step_count params in
  let centerIdx := Z.quot n 2 in
  time_loop params n r centerIdx steps (Z.to_nat steps) 0 start.

(** Go's [(results, error)]: [nil] results are the empty list, a [nil]
    error is [None]. *)
Definition simulateHeatConduction (params : SimulationParams)
  : go (list SimulationResult * option string) :=
  let r := courant params in
  if 0.5 <? r then Ret ([], Some (unstable r))
  else
    let! final := integrate params in
    Ret (results final, None).
End Engine.

(** A concrete [%f]: enough for the examples, which only print the ratio of
    an unstable run; the theorems hold for every formatter. *)
Definition format_f_stub (_ : float) : string := "<r>"%string.

End Heat.

(** ** lab01: the HTTP handler in front of [simulate] *)

Module ProjectileHandler.
Import Go Projectile.
Local Open Scope float_scope.

(** What [simulateHandler] answers (the CORS headers, the same on every
    path, are left out): nothing but a status, an error text, or the JSON
    encoding of a response (with status 200). *)
Inductive reply :=
  | Empty (status : Z)
  | ErrorText (status : Z) (text : string)
  | Result (resp : SimulationResponse).

(** [Encode] refuses a value that holds NaN or an infinity. *)
Definition encodable_point (p : Point) : bool :=
  is_finite (X p) && is_finite (Y p) && is_finite (V p) && is_finite (T p).

Definition encodable (resp : SimulationResponse) : bool :=
  forallb encodable_point (Trajectory resp)
  && is_finite (Range resp) && is_finite (MaxHeight resp)
  && is_finite (FinalVelocity resp) && is_finite (TimeOfFlight resp).

(** [json.NewEncoder(w).Encode(result)]: when the encoder refuses the value
    it writes nothing, and the handler drops its error, so the reply is an
    empty 200. *)
Definition Encode (result : SimulationResponse) : reply :=
  if encodable result then Result result else Empty 200.

Section Handler.
Variables Cos Sin : float -> float.

(** [method] is [r.Method]; [body] is what decoding the body as a
    [SimulationRequest] gives: the text of the decoding error, or the
    request. *)
Definition simulateHandler (method : string)
    (body : string + SimulationRequest) : option reply :=
  if String.eqb method "OPTIONS" then Some (Empty 200)
  else if negb (String.eqb method "POST")
  then Some (ErrorText 405 "Method not allowed")
  else match body with
       | inl err => Some (ErrorText 400 err)
       | inr req =>
           if (V0 req <=? 0) || (Angle req <? 0) || (90 <? Angle req)
              || (Dt req <=? 0)
           then Some (ErrorText 400 "Invalid parameters")
           else option_map Encode (simulate Cos Sin req)
       end.
End Handler.

End ProjectileHandler.

(** ** lab02: the WebSocket handler in front of [simulateHeatConduction] *)

Module HeatHandler.
Import Go Heat.
Local Open Scope float_scope.


Section Handler.
Variable int_oob : float -> Z.
Variable allocates : Z -> bool.
Variable format_f : float -> string.

End Handler.

End HeatHandler.

(** ** lab02: the frontend's colour scale ([App.jsx], [TemperatureHeatmap.jsx])

    JavaScript numbers are [float64] too. *)

Module Heatmap.
Import Go.
Local Open Scope float_scope.

Definition is_pos_zero (x : float) : bool :=
  match classify x with PZero => true | _ => false end.

Definition is_neg_zero (x : float) : bool :=
  match classify x with NZero => true | _ => false end.

(** [Math.min(...values)], from [lowest] on: NaN wins, and -0 is below +0. *)
Fixpoint min_from (lowest : float) (values : list float) : float :=
  match values with
  | [] => lowest
  | number :: values' =>
      if is_nan number then nan
      else
        let lowest :=
          if is_neg_zero number && is_pos_zero lowest then neg_zero
          else lowest in
        let lowest := if number <? lowest then number else lowest in
        min_from lowest values'
  end.

Definition Math_min (values : list float) : float := min_from infinity values.

(** [Math.max(...values)], from [highest] on. *)
Fixpoint max_from (highest : float) (values : list float) : float :=
  match values with
  | [] => highest
  | number :: values' =>
      if is_nan number then nan
      else
        let highest :=
          if is_pos_zero number && is_neg_zero highest then zero
          else highest in
        let highest := if highest <? number then number else highest in
        max_from highest values'
  end.

Definition Math_max (values : list float) : float :=
  max_from neg_infinity values.

(** [Math.floor]: the greatest integral value not above [x]. *)
Definition Math_floor (x : float) : float :=
  match Prim2SF x with
  | S754_finite s m (Zneg k) =>
      let q := Z.shiftr (Zpos m) (Zpos k) in
      if s then
        (if (Z.shiftl q (Zpos k) =? Zpos m)%Z then - float_of_Z q
         else - float_of_Z (q + 1))
      else float_of_Z q
  | _ => x
  end.

(** [getMinMaxTemp] of [App.jsx]; [None] is "no current result". *)
Definition getMinMaxTemp (currentResult : option (list float))
  : float * float :=
  match currentResult with
  | None => (0, 100)
  | Some temps => (Math_min temps, Math_max temps)
  end.

(** The position of [temp] on the scale, as the drawing loop computes it. *)
Definition normalize (temp minTemp maxTemp : float) : float :=
  (temp - minTemp) / (maxTemp - minTemp).

(** [getTemperatureColor], as the three channels [r], [g], [b] that go into
    the string [rgb(r, g, b)]. *)
Definition getTemperatureColor (normalized : float) : float * float * float :=
  let normalized := Math_max [0; Math_min [1; normalized]] in
  if normalized <? 0.25 then
    let t := normalized / 0.25 in
    (0, Math_floor (128 * t), 255)
  else if normalized <? 0.5 then
    let t := (normalized - 0.25) / 0.25 in
    (0, 128 + Math_floor (127 * t), Math_floor (255 * (1 - t)))
  else if normalized <? 0.75 then
    let t := (normalized - 0.5) / 0.25 in
    (Math_floor (255 * t), 255, 0)
  else
    let t := (normalized - 0.75) / 0.25 in
    (255, Math_floor (255 * (1 - t)), 0).

(** The colours of the cells of one frame, with the scale of that frame. *)
Definition cellColors (temps : list float) : list (float * float * float) :=
  let '(minTemp, maxTemp) := getMinMaxTemp (Some temps) in
  map (fun temp => getTemperatureColor (normalize temp minTemp maxTemp)) temps.

End Heatmap.

(** * Proofs *)

(** ** Order facts on [float64]

    The comparisons of Go ([<], [<=], [==]) are the IEEE ones: every
    comparison with NaN is false.  The facts below are read off the
    specification [SFcompare] of the primitive comparisons. *)

Module GoFacts.
Import Go.
Local Open Scope float_scope.

Lemma SFcompare_antisym (x y : spec_float) :
  SFcompare y x = option_map CompOpp (SFcompare x y).
Proof.
  destruct x as [sx|sx| |sx mx ex], y as [sy|sy| |sy my ey]; simpl;
    try destruct sx; try destruct sy; try reflexivity;
    rewrite (Z.compare_antisym ex ey), !Pos.compare_cont_spec,
      (Pos.compare_antisym mx my);
    destruct (ex ?= ey)%Z; simpl; try reflexivity;
    destruct (mx ?= my)%positive; reflexivity.
Qed.

Lemma SFcompare_refl (x : spec_float) :
  x <> S754_nan -> SFcompare x x = Some Eq.
Proof.
  destruct x as [s|s| |s m e]; simpl; intros H; try congruence;
    destruct s; try reflexivity;
    rewrite Z.compare_refl, Pos.compare_cont_spec, Pos.compare_refl;
    reflexivity.
Qed.

Lemma SFcompare_some_l (x y : spec_float) c :
  SFcompare x y = Some c -> x <> S754_nan.
Proof. destruct x; simpl; congruence. Qed.

Lemma SFcompare_some_r (x y : spec_float) c :
  SFcompare x y = Some c -> y <> S754_nan.
Proof. destruct x, y; simpl; congruence. Qed.

Lemma SFcompare_total (x y : spec_float) :
  x <> S754_nan -> y <> S754_nan -> exists c, SFcompare x y = Some c.
Proof. destruct x, y; simpl; intros; try congruence; eauto. Qed.

(** Transitivity of the lexicographic comparison of (exponent, mantissa),
    as it appears for two positive floats ... *)
Lemma lex_trans (e1 e2 e3 : Z) (m1 m2 m3 : positive) c12 c23 :
  (match (e1 ?= e2)%Z with
   | Lt => Lt | Gt => Gt | Eq => Pos.compare_cont Eq m1 m2 end) = c12 ->
  (match (e2 ?= e3)%Z with
   | Lt => Lt | Gt => Gt | Eq => Pos.compare_cont Eq m2 m3 end) = c23 ->
  c12 <> Gt -> c23 = Lt ->
  (match (e1 ?= e3)%Z with
   | Lt => Lt | Gt => Gt | Eq => Pos.compare_cont Eq m1 m3 end) = Lt.
Proof.
  rewrite !Pos.compare_cont_spec; simpl.
  destruct (Z.compare_spec e1 e2), (Z.compare_spec e2 e3),
    (Z.compare_spec e1 e3);
    try lia; intros; subst; try congruence;
    destruct (Pos.compare_spec m1 m2), (Pos.compare_spec m2 m3),
      (Pos.compare_spec m1 m3);
    try lia; simpl in *; congruence.
Qed.

(** ... and for two negative ones, where the order is reversed. *)
Lemma lex_trans_opp (e1 e2 e3 : Z) (m1 m2 m3 : positive) c12 c23 :
  (match (e1 ?= e2)%Z with
   | Lt => Gt | Gt => Lt | Eq => CompOpp (Pos.compare_cont Eq m1 m2) end) = c12 ->
  (match (e2 ?= e3)%Z with
   | Lt => Gt | Gt => Lt | Eq => CompOpp (Pos.compare_cont Eq m2 m3) end) = c23 ->
  c12 <> Gt -> c23 = Lt ->
  (match (e1 ?= e3)%Z with
   | Lt => Gt | Gt => Lt | Eq => CompOpp (Pos.compare_cont Eq m1 m3) end) = Lt.
Proof.
  rewrite !Pos.compare_cont_spec; simpl.
  destruct (Z.compare_spec e1 e2), (Z.compare_spec e2 e3),
    (Z.compare_spec e1 e3);
    try lia; intros; subst; try congruence;
    destruct (Pos.compare_spec m1 m2), (Pos.compare_spec m2 m3),
      (Pos.compare_spec m1 m3);
    try lia; simpl in *; congruence.
Qed.

Lemma SFcompare_le_lt_trans (a b c : spec_float) c1 :
  SFcompare a b = Some c1 -> c1 <> Gt -> SFcompare b c = Some Lt ->
  SFcompare a c = Some Lt.
Proof.
  intros Hab Hc1 Hbc.
  destruct a as [sa|sa| |sa ma ea], b as [sb|sb| |sb mb eb],
    c as [sc|sc| |sc mc ec];
    simpl in *; try congruence;
    repeat match goal with s : bool |- _ => destruct s end;
    simpl in *; try congruence;
    injection Hab as Hab; injection Hbc as Hbc; f_equal.
  - eapply lex_trans_opp; eauto.
  - eapply lex_trans; eauto.
Qed.

Lemma leb_not_nan_l (x y : float) : (x <=? y) = true -> not_nan x.
Proof.
  rewrite FloatAxioms.leb_spec. unfold SFleb, not_nan.
  destruct (SFcompare (Prim2SF x) (Prim2SF y)) as [c|] eqn:E; [|discriminate].
  intros _. eapply SFcompare_some_l, E.
Qed.

Lemma leb_not_nan_r (x y : float) : (x <=? y) = true -> not_nan y.
Proof.
  rewrite FloatAxioms.leb_spec. unfold SFleb, not_nan.
  destruct (SFcompare (Prim2SF x) (Prim2SF y)) as [c|] eqn:E; [|discriminate].
  intros _. eapply SFcompare_some_r, E.
Qed.

Lemma leb_refl (x : float) : not_nan x -> (x <=? x) = true.
Proof.
  intros H. rewrite FloatAxioms.leb_spec. unfold SFleb.
  now rewrite (SFcompare_refl _ H).
Qed.

(** [x <= y] excludes [y < x] ... *)
Lemma leb_ltb_false (x y : float) : (x <=? y) = true -> (y <? x) = false.
Proof.
  rewrite FloatAxioms.leb_spec, FloatAxioms.ltb_spec. unfold SFleb, SFltb.
  rewrite (SFcompare_antisym (Prim2SF x) (Prim2SF y)).
  destruct (SFcompare (Prim2SF x) (Prim2SF y)) as [[]|]; simpl; congruence.
Qed.

(** ... and [x < y] excludes [y <= x]. *)
Lemma ltb_leb_false (x y : float) : (x <? y) = true -> (y <=? x) = false.
Proof.
  rewrite FloatAxioms.leb_spec, FloatAxioms.ltb_spec. unfold SFleb, SFltb.
  rewrite (SFcompare_antisym (Prim2SF x) (Prim2SF y)).
  destruct (SFcompare (Prim2SF x) (Prim2SF y)) as [[]|]; simpl; congruence.
Qed.

(** On numbers the order is total: when [x < y] fails, [y <= x] holds. *)
Lemma ltb_false_leb (x y : float) :
  not_nan x -> not_nan y -> (x <? y) = false -> (y <=? x) = true.
Proof.
  intros Hx Hy. rewrite FloatAxioms.leb_spec, FloatAxioms.ltb_spec. unfold SFleb, SFltb.
  rewrite (SFcompare_antisym (Prim2SF x) (Prim2SF y)).
  destruct (SFcompare_total _ _ Hx Hy) as [c ->].
  destruct c; simpl; congruence.
Qed.

Lemma ltb_leb (x y : float) : (x <? y) = true -> (x <=? y) = true.
Proof.
  rewrite FloatAxioms.leb_spec, FloatAxioms.ltb_spec. unfold SFleb, SFltb.
  destruct (SFcompare (Prim2SF x) (Prim2SF y)) as [[]|]; simpl; congruence.
Qed.

Lemma leb_ltb_trans (a b c : float) :
  (a <=? b) = true -> (b <? c) = true -> (a <=? c) = true.
Proof.
  rewrite !FloatAxioms.leb_spec, FloatAxioms.ltb_spec. unfold SFleb, SFltb.
  destruct (SFcompare (Prim2SF a) (Prim2SF b)) as [c1|] eqn:Eab; [|discriminate].
  destruct (SFcompare (Prim2SF b) (Prim2SF c)) as [c2|] eqn:Ebc; [|discriminate].
  intros H1 H2. destruct c2; try discriminate.
  rewrite (SFcompare_le_lt_trans _ _ _ c1 Eab); [reflexivity| |assumption].
  destruct c1; congruence.
Qed.

(** *** Finite floats and arithmetic with zero *)

Lemma is_finite_spec (x : float) :
  is_finite x = true ->
  (exists s, Prim2SF x = S754_zero s) \/ (exists s m e, Prim2SF x = S754_finite s m e).
Proof.
  unfold is_finite, is_nan, is_infinity.
  rewrite !FloatAxioms.eqb_spec, FloatAxioms.abs_spec.
  change (Prim2SF infinity) with (S754_infinity false).
  destruct (Prim2SF x) as [s|s| |s m e]; simpl; try discriminate; eauto.
  destruct s; discriminate.
Qed.

(** Adding [0 * d], for a finite [d], gives a float equal to the first
    operand for [==] (it only turns [-0] into [+0]). *)
Lemma add_zero_mul_eqb (a d : float) :
  is_finite a = true -> is_finite d = true -> (a + 0 * d =? a) = true.
Proof.
  intros Ha Hd.
  rewrite FloatAxioms.eqb_spec, FloatAxioms.add_spec, FloatAxioms.mul_spec.
  change (Prim2SF 0) with (S754_zero false).
  destruct (is_finite_spec a Ha) as [[sa ->]|(sa & ma & ea & ->)];
    destruct (is_finite_spec d Hd) as [[sd ->]|(sd & md & ed & ->)];
    simpl; destruct sa; try destruct sd; simpl; try reflexivity;
    unfold SFeqb; rewrite SFcompare_refl; congruence.
Qed.

Lemma binary_round_aux_opp (s : bool) (m e : Z) (l : location) :
  binary_round_aux prec emax (negb s) m e l
  = SFopp (binary_round_aux prec emax s m e l).
Proof.
  unfold binary_round_aux.
  destruct (shr_fexp prec emax m e l) as [mrs e'].
  destruct (shr_fexp prec emax _ e' loc_Exact) as [mrs' e''].
  destruct (shr_m mrs'); try reflexivity.
  destruct (e'' <=? emax - prec)%Z; reflexivity.
Qed.

Lemma SFmul_opp_l (a b : spec_float) :
  SFmul prec emax (SFopp a) b = SFopp (SFmul prec emax a b).
Proof.
  destruct a as [sa|sa| |sa ma ea], b as [sb|sb| |sb mb eb]; simpl;
    try reflexivity; try (destruct sa, sb; reflexivity).
  rewrite <- binary_round_aux_opp. f_equal. destruct sa, sb; reflexivity.
Qed.

Lemma SFadd_opp_r (a b : spec_float) :
  SFadd prec emax a (SFopp b) = SFsub prec emax a b.
Proof.
  destruct a as [sa|sa| |sa ma ea], b as [sb|sb| |sb mb eb]; simpl;
    try reflexivity; destruct sa, sb; reflexivity.
Qed.

(** [x + (-a) * b] and [x - a * b] are the same float. *)
Lemma add_opp_mul (x a b : float) : x + (- a) * b = x - a * b.
Proof.
  apply Prim2SF_inj.
  rewrite FloatAxioms.add_spec, FloatAxioms.sub_spec, !FloatAxioms.mul_spec,
    FloatAxioms.opp_spec.
  unfold SF64add, SF64sub, SF64mul.
  now rewrite SFmul_opp_l, SFadd_opp_r.
Qed.

(** A square root that compares equal to zero comes from finite operands:
    an infinite or NaN component makes the speed infinite or NaN. *)
Lemma sqrt_sum_squares_zero (a b : float) :
  (sqrt (a * a + b * b) =? 0) = true -> is_finite a = true.
Proof.
  rewrite FloatAxioms.eqb_spec, FloatAxioms.sqrt_spec, FloatAxioms.add_spec,
    (FloatAxioms.mul_spec a a).
  change (Prim2SF 0) with (S754_zero false).
  unfold is_finite, is_nan, is_infinity.
  rewrite !FloatAxioms.eqb_spec, FloatAxioms.abs_spec.
  change (Prim2SF infinity) with (S754_infinity false).
  destruct (Prim2SF a) as [sa|sa| |sa ma ea]; simpl.
  - destruct sa; reflexivity.
  - destruct sa; simpl; destruct (Prim2SF (b * b)) as [s|s| |s m e];
      try destruct s; simpl; discriminate.
  - discriminate.
  - intros _. unfold SFeqb. rewrite SFcompare_refl by discriminate.
    destruct sa; reflexivity.
Qed.

(** *** Conversion to [int] *)

(** On a float whose floor is a non-negative [int], the conversion [int(f)]
    is the floor, whatever the platform does out of range. *)
Lemma int_of_float64_floor (int_oob : float -> Z) (f : float) (z : Z) :
  SFfloor (Prim2SF f) = Some z -> (0 <= z <= max_int)%Z ->
  int_of_float64 int_oob f = z.
Proof.
  unfold int_of_float64, SFfloor, SFtrunc.
  destruct (Prim2SF f) as [s|s| |s m e]; try discriminate.
  - intros [= <-] _. reflexivity.
  - pose proof (proj2 (Z.shiftl_nonneg (Zpos m) e) ltac:(lia)) as Hsh.
    destruct s; intros [= <-] Hz.
    + exfalso.
      destruct (Z.eqb_spec (Z.shiftl (Z.shiftl (Z.pos m) e) (- e)) (Z.pos m))
        as [E|E]; [|lia].
      assert (E0 : Z.shiftl (Z.pos m) e = 0%Z) by lia.
      rewrite E0, Z.shiftl_0_l in E. discriminate.
    + simpl.
      destruct (Z.leb_spec min_int (Z.shiftl (Z.pos m) e));
        [|unfold min_int in *; lia].
      destruct (Z.leb_spec (Z.shiftl (Z.pos m) e) max_int); [reflexivity|lia].
Qed.

(** *** More order facts, NaN tests and zeros *)

Lemma is_nan_false (x : float) : not_nan x -> is_nan x = false.
Proof.
  intros H. unfold is_nan. rewrite FloatAxioms.eqb_spec. unfold SFeqb.
  now rewrite (SFcompare_refl _ H).
Qed.

Lemma is_finite_not_nan (x : float) : is_finite x = true -> not_nan x.
Proof.
  intros H. unfold not_nan.
  destruct (is_finite_spec x H) as [[s ->]|(s & m & e & ->)]; discriminate.
Qed.

(** [a <= b] and [b < c] give [a < c]. *)
Lemma leb_ltb_trans_lt (a b c : float) :
  (a <=? b) = true -> (b <? c) = true -> (a <? c) = true.
Proof.
  rewrite FloatAxioms.leb_spec, !FloatAxioms.ltb_spec. unfold SFleb, SFltb.
  destruct (SFcompare (Prim2SF a) (Prim2SF b)) as [c1|] eqn:Eab; [|discriminate].
  destruct (SFcompare (Prim2SF b) (Prim2SF c)) as [c2|] eqn:Ebc; [|discriminate].
  intros H1 H2. destruct c2; try discriminate.
  rewrite (SFcompare_le_lt_trans _ _ _ c1 Eab); [reflexivity| |assumption].
  destruct c1; congruence.
Qed.

(** Every finite float is below +infinity and above -infinity. *)
Lemma finite_ltb_infinity (x : float) :
  is_finite x = true -> (x <? infinity) = true.
Proof.
  intros H. rewrite FloatAxioms.ltb_spec.
  change (Prim2SF infinity) with (S754_infinity false).
  destruct (is_finite_spec x H) as [[s ->]|(s & m & e & ->)]; reflexivity.
Qed.

Lemma neg_infinity_ltb_finite (x : float) :
  is_finite x = true -> (neg_infinity <? x) = true.
Proof.
  intros H. rewrite FloatAxioms.ltb_spec.
  change (Prim2SF neg_infinity) with (S754_infinity true).
  destruct (is_finite_spec x H) as [[s ->]|(s & m & e & ->)]; reflexivity.
Qed.

(** A finite float minus itself is +0. *)
Lemma sub_diag_finite (x : float) : is_finite x = true -> x - x = 0.
Proof.
  intros H. apply Prim2SF_inj. rewrite FloatAxioms.sub_spec.
  change (Prim2SF 0) with (S754_zero false).
  destruct (is_finite_spec x H) as [[s ->]|(s & m & e & ->)].
  - destruct s; reflexivity.
  - unfold SF64sub, SFsub. rewrite Z.sub_diag. reflexivity.
Qed.

(** Floats that compare equal compare alike with every other float. *)
Lemma SFcompare_eq_r (a b c : spec_float) :
  SFcompare b c = Some Eq -> SFcompare a c = SFcompare a b.
Proof.
  destruct a as [sa|sa| |sa ma ea], b as [sb|sb| |sb mb eb],
    c as [sc|sc| |sc mc ec];
    simpl; try congruence;
    repeat match goal with s : bool |- _ => destruct s end;
    simpl; try congruence;
    rewrite !Pos.compare_cont_spec; simpl;
    destruct (Z.compare_spec eb ec); try discriminate; subst;
    destruct (Pos.compare_spec mb mc); try discriminate; subst; reflexivity.
Qed.

Lemma leb_trans (a b c : float) :
  (a <=? b) = true -> (b <=? c) = true -> (a <=? c) = true.
Proof.
  intros Hab Hbc. destruct (b <? c) eqn:E.
  - eapply leb_ltb_trans; eassumption.
  - revert Hab Hbc E.
    rewrite !FloatAxioms.leb_spec, FloatAxioms.ltb_spec. unfold SFleb, SFltb.
    destruct (SFcompare (Prim2SF b) (Prim2SF c)) as [[]|] eqn:Ebc;
      try discriminate.
    now rewrite (SFcompare_eq_r (Prim2SF a) _ _ Ebc).
Qed.

Lemma is_pos_zero_spec (x : float) :
  Heatmap.is_pos_zero x = true -> Prim2SF x = S754_zero false.
Proof.
  unfold Heatmap.is_pos_zero. rewrite FloatAxioms.classify_spec.
  unfold SF64classify, SFclassify.
  destruct (Prim2SF x) as [[]|[]| |[] m e]; try discriminate; try reflexivity;
    destruct (Z.pos (digits2_pos m) =? prec)%Z; discriminate.
Qed.

Lemma is_neg_zero_spec (x : float) :
  Heatmap.is_neg_zero x = true -> Prim2SF x = S754_zero true.
Proof.
  unfold Heatmap.is_neg_zero. rewrite FloatAxioms.classify_spec.
  unfold SF64classify, SFclassify.
  destruct (Prim2SF x) as [[]|[]| |[] m e]; try discriminate; try reflexivity;
    destruct (Z.pos (digits2_pos m) =? prec)%Z; discriminate.
Qed.

(** The two zeros compare equal, in both directions. *)
Lemma zeros_leb (x y : float) (s s' : bool) :
  Prim2SF x = S754_zero s -> Prim2SF y = S754_zero s' -> (x <=? y) = true.
Proof. intros Hx Hy. now rewrite FloatAxioms.leb_spec, Hx, Hy. Qed.

(** On numbers, [<=] is the negation of the converse [<]. *)
Lemma leb_negb_ltb (x y : float) :
  not_nan x -> not_nan y -> (x <=? y) = negb (y <? x).
Proof.
  intros Hx Hy. destruct (y <? x) eqn:E; simpl.
  - apply ltb_leb_false, E.
  - apply ltb_false_leb; assumption.
Qed.

Lemma ltb_negb_leb (x y : float) :
  not_nan x -> not_nan y -> (x <? y) = negb (y <=? x).
Proof.
  intros Hx Hy. rewrite (leb_negb_ltb y x Hy Hx). now rewrite negb_involutive.
Qed.

(** Dividing by a float that compares equal to 0 gives an infinity or NaN,
    never a finite float. *)
Lemma div_by_zero_not_finite (x d : float) :
  (d =? 0) = true -> SFtrunc (Prim2SF (x / d)) = None.
Proof.
  rewrite FloatAxioms.eqb_spec, FloatAxioms.div_spec.
  change (Prim2SF 0) with (S754_zero false). unfold SFeqb.
  destruct (Prim2SF d) as [sd|sd| |sd md ed]; simpl;
    try destruct sd; try discriminate;
    intros _; destruct (Prim2SF x) as [sx|sx| |sx mx ex]; reflexivity.
Qed.

(** [math.Ceil] returns infinities and NaN as they are. *)
Lemma Ceil_not_finite (x : float) :
  SFtrunc (Prim2SF x) = None -> Ceil x = x.
Proof.
  unfold Ceil. destruct (Prim2SF x) as [s|s| |s m e]; try discriminate;
    reflexivity.
Qed.

End GoFacts.

(** ** lab01: properties of the projectile integrator *)

Module ProjectileProofs.
Import Go GoFacts Projectile.
Local Open Scope float_scope.

(** *** The loop *)

(** More fuel does not change the state in which the loop is left. *)
Lemma flight_fuel_mono (dt : float) (fuel fuel' : nat) (s s' : state) :
  flight fuel dt s = Some s' -> (fuel <= fuel')%nat ->
  flight fuel' dt s = Some s'.
Proof.
  revert fuel' s. induction fuel as [|fuel IH]; intros fuel' s; simpl.
  - discriminate.
  - intros H Hle. destruct fuel' as [|fuel']; [lia|]. simpl.
    destruct (0 <=? y s); [|assumption].
    destruct (1000000 <? steps (body dt s))%Z; [assumption|].
    apply IH; [assumption|lia].
Qed.

(** The loop is left once the counter has passed 1000000, so fuel for the
    remaining passes is enough. *)
Lemma flight_terminates (dt : float) (fuel : nat) (s : state) :
  (steps s <= 1000000)%Z -> (1000001 <= steps s + Z.of_nat fuel)%Z ->
  exists s', flight fuel dt s = Some s'.
Proof.
  revert s. induction fuel as [|fuel IH]; intros s Hs Hfuel; [lia|].
  simpl. destruct (0 <=? y s); [|eauto].
  destruct (1000000 <? steps (body dt s))%Z eqn:E; [eauto|].
  apply Z.ltb_ge in E. apply IH; [assumption|].
  unfold body in *. destruct (acceleration s). simpl in *. lia.
Qed.

(** Hoare-style rule for the loop: [P] holds whenever the guard is tested,
    [Q] when the loop is left (by the guard or by the [break]). *)
Lemma flight_rule (dt : float) (P Q : state -> Prop) :
  (forall s, P s -> (0 <=? y s) = false -> Q s) ->
  (forall s, P s -> (0 <=? y s) = true ->
             (1000000 < steps (body dt s))%Z -> Q (body dt s)) ->
  (forall s, P s -> (0 <=? y s) = true ->
             (steps (body dt s) <= 1000000)%Z -> P (body dt s)) ->
  forall fuel s s', P s -> flight fuel dt s = Some s' -> Q s'.
Proof.
  intros Hexit Hbreak Hstep. induction fuel as [|fuel IH]; intros s s' HP; simpl.
  - discriminate.
  - destruct (0 <=? y s) eqn:Hy.
    + destruct (1000000 <? steps (body dt s))%Z eqn:E.
      * intros [= <-]. apply Z.ltb_lt in E. auto.
      * apply Z.ltb_ge in E. apply IH. auto.
    + intros [= <-]. auto.
Qed.

(** With the guard false the loop is left at once. *)
Lemma flight_guard_fails (dt : float) (fuel : nat) (s : state) :
  (0 <=? y s) = false -> flight (S fuel) dt s = Some s.
Proof. intros H. simpl. now rewrite H. Qed.

Lemma enough_fuel_S : enough_fuel = S (Z.to_nat 1000000).
Proof.
  unfold enough_fuel. change 1000001%Z with (Z.succ 1000000).
  apply Z2Nat.inj_succ. lia.
Qed.

Lemma steps_body (dt : float) (s : state) :
  steps (body dt s) = (steps s + 1)%Z.
Proof. unfold body. destruct (acceleration s). reflexivity. Qed.

Lemma trajectory_body (dt : float) (s : state) :
  trajectory (body dt s) = point_of s :: trajectory s.
Proof. unfold body. destruct (acceleration s). reflexivity. Qed.

Lemma maxHeight_body (dt : float) (s : state) :
  maxHeight (body dt s) = if maxHeight s <? y s then y s else maxHeight s.
Proof. unfold body. destruct (acceleration s). reflexivity. Qed.

Lemma flight_counted (dt : float) (fuel : nat) (s s' : state) :
  counted 1000000 s -> flight fuel dt s = Some s' -> counted 1000001 s'.
Proof.
  apply (flight_rule dt (counted 1000000) (counted 1000001)); unfold counted.
  - intros s0 [H1 H2] _. split; [assumption|lia].
  - intros s0 [H1 H2] _ _. rewrite steps_body, trajectory_body. simpl.
    split; lia.
  - intros s0 [H1 H2] _ Hb. rewrite steps_body, trajectory_body in *. simpl.
    split; lia.
Qed.

(** Points are recorded only while [y >= 0]. *)
Lemma flight_above_ground (dt : float) (fuel : nat) (s s' : state) :
  Forall (fun p => (0 <=? Y p) = true) (trajectory s) ->
  flight fuel dt s = Some s' ->
  Forall (fun p => (0 <=? Y p) = true) (trajectory s').
Proof.
  apply (flight_rule dt
           (fun s => Forall (fun p => (0 <=? Y p) = true) (trajectory s))
           (fun s => Forall (fun p => (0 <=? Y p) = true) (trajectory s))).
  - auto.
  - intros s0 H Hy _. rewrite trajectory_body. constructor; assumption.
  - intros s0 H Hy _. rewrite trajectory_body. constructor; assumption.
Qed.

(** The loop is left because the guard fails or because of the [break]. *)
Lemma flight_exit (dt : float) (fuel : nat) (s s' : state) :
  (steps s <= 1000000)%Z ->
  flight fuel dt s = Some s' ->
  (0 <=? y s') = false \/ steps s' = 1000001%Z.
Proof.
  apply (flight_rule dt (fun s => (steps s <= 1000000)%Z)
           (fun s => (0 <=? y s) = false \/ steps s = 1000001%Z)).
  - auto.
  - intros s0 H _ Hb. right. rewrite steps_body in *. lia.
  - auto.
Qed.

(** The maximum is tracked through every pass of the loop. *)
Lemma tracked_body (dt : float) (s : state) :
  tracked dt s -> (0 <=? y s) = true -> tracked dt (body dt s).
Proof.
  intros H Hy. right.
  assert (Hn : not_nan (y s)) by (eapply leb_not_nan_r; eassumption).
  rewrite maxHeight_body, trajectory_body.
  destruct H as [[Ht Hm]|(Hnm & Hall & Hex & _)].
  - rewrite Hm, Ht.
    rewrite (leb_ltb_false _ _ (leb_refl _ Hn)).
    repeat split.
    + assumption.
    + constructor; [|constructor]. simpl. apply leb_refl, Hn.
    + constructor. reflexivity.
    + exists s. auto.
  - destruct (maxHeight s <? y s) eqn:E; repeat split.
    + assumption.
    + constructor; [simpl; apply leb_refl, Hn|].
      eapply Forall_impl; [exact Hall|]. simpl.
      intros p Hp. eapply leb_ltb_trans; eassumption.
    + constructor. reflexivity.
    + exists s. auto.
    + assumption.
    + constructor; [simpl; apply ltb_false_leb; assumption|assumption].
    + apply Exists_cons_tl. assumption.
    + exists s. auto.
Qed.

Lemma flight_tracked (dt : float) (fuel : nat) (s s' : state) :
  tracked dt s -> flight fuel dt s = Some s' -> tracked dt s'.
Proof.
  apply (flight_rule dt (tracked dt) (tracked dt));
    auto using tracked_body.
Qed.

Section Engine.
Variables Cos Sin : float -> float.

Lemma launch_counted (req : SimulationRequest) :
  counted 1000000 (launch Cos Sin req).
Proof. split; simpl; lia. Qed.

Lemma launch_tracked (req : SimulationRequest) :
  tracked (Dt req) (launch Cos Sin req).
Proof. left. split; reflexivity. Qed.

(** The loop of [simulate] is always left with the fuel of [simulate]. *)
Lemma landing_total (req : SimulationRequest) :
  exists sf, landing Cos Sin enough_fuel req = Some sf.
Proof.
  apply flight_terminates; simpl; unfold enough_fuel; lia.
Qed.
End Engine.

(** *** The step cap *)

(** C3, as amended.  [simulate] terminates on every request (the fuel of the
    model is never exhausted, and more fuel gives the same response), with no
    error value; the returned step count is at most 1,000,001, not 1,000,000:
    the loop is left when the counter has passed 1,000,000.  The trajectory
    accumulated so far is what is returned: one point per counted step. *)
Theorem simulate_terminates_step_cap (Cos Sin : float -> float)
    (req : SimulationRequest) :
  exists resp,
    simulate Cos Sin req = Some resp /\
    (forall fuel, (enough_fuel <= fuel)%nat ->
                  simulate_fuel Cos Sin fuel req = Some resp) /\
    (0 <= SimulationSteps resp <= 1000001)%Z /\
    Z.of_nat (length (Trajectory resp)) = SimulationSteps resp.
Proof.
  destruct (landing_total Cos Sin req) as [sf Hsf].
  exists (respond sf). unfold simulate, simulate_fuel.
  split; [now rewrite Hsf|]. split.
  - intros fuel Hfuel. unfold landing in *.
    now rewrite (flight_fuel_mono _ _ _ _ _ Hsf Hfuel).
  - destruct (flight_counted _ _ _ _ (launch_counted Cos Sin req) Hsf)
      as [Hlen Hle].
    simpl. rewrite length_reverse. lia.
Qed.

(** C3, the claim as stated fails: a body dropped from 100 km with a step of
    one millisecond is still in the air when the loop is left, and the step
    count returned is 1,000,001. *)
Lemma step_count_exceeds_million :
  let req := mkRequest 1 0 100000 0.001 in
  accepted req = true /\
  option_map SimulationSteps (simulate Cos_at_0 Sin_at_0 req)
  = Some 1000001%Z.
Proof. split; vm_compute; reflexivity. Qed.

(** *** Where the trajectory ends *)

(** C4, as amended.  Every recorded point has [y >= 0]: a point is recorded
    only after the guard of the loop has passed.  What fails [y >= 0] when
    the loop is left is the height of the final state, which is not recorded
    in the trajectory -- unless the loop was left by the step cap. *)
Theorem trajectory_stays_above_ground (Cos Sin : float -> float)
    (req : SimulationRequest) :
  exists sf,
    landing Cos Sin enough_fuel req = Some sf /\
    simulate Cos Sin req = Some (respond sf) /\
    Forall (fun p => (0 <=? Y p) = true) (Trajectory (respond sf)) /\
    ((0 <=? y sf) = false \/ SimulationSteps (respond sf) = 1000001%Z).
Proof.
  destruct (landing_total Cos Sin req) as [sf Hsf]. exists sf.
  split; [assumption|]. split; [unfold simulate, simulate_fuel; now rewrite Hsf|].
  split.
  - simpl. apply Forall_reverse.
    eapply flight_above_ground; [|exact Hsf]. constructor.
  - eapply flight_exit; [|exact Hsf]. simpl. lia.
Qed.

(** C4, the claim as stated fails: launched level from the ground with a step
    of one second, the only recorded point is the launch point, at height 0,
    and the loop is left after one step. *)
Lemma last_point_not_below_ground :
  let req := mkRequest 1 0 0 1 in
  accepted req = true /\
  exists resp p,
    simulate Cos_at_0 Sin_at_0 req = Some resp /\
    last (Trajectory resp) = Some p /\
    (Y p <? 0) = false /\ SimulationSteps resp = 1%Z.
Proof.
  split; [reflexivity|]. eexists _, _.
  split; [vm_compute; reflexivity|].
  split; [reflexivity|]. split; reflexivity.
Qed.

(** *** What the result is derived from *)

(** C5, as amended.  With a non-empty trajectory, [maxHeight] is the greatest
    [y] of the trajectory, but [range], [finalVelocity] and [timeOfFlight]
    are taken from the final state, one Euler step after the state [sp] of
    the last recorded point. *)
Theorem result_is_one_step_past_last_point (Cos Sin : float -> float)
    (req : SimulationRequest) (resp : SimulationResponse) :
  simulate Cos Sin req = Some resp ->
  Trajectory resp <> [] ->
  exists sp sf,
    last (Trajectory resp) = Some (point_of sp) /\
    sf = body (Dt req) sp /\
    Range resp = x sf /\
    Range resp = X (point_of sp) + vx sf * Dt req /\
    FinalVelocity resp = speed sf /\
    TimeOfFlight resp = T (point_of sp) + Dt req /\
    Forall (fun p => (Y p <=? MaxHeight resp) = true) (Trajectory resp) /\
    Exists (fun p => Y p = MaxHeight resp) (Trajectory resp).
Proof.
  unfold simulate, simulate_fuel.
  destruct (landing Cos Sin enough_fuel req) as [sf|] eqn:Hsf; [|discriminate].
  intros [= <-] Hne.
  destruct (flight_tracked _ _ _ _ (launch_tracked Cos Sin req) Hsf)
    as [[Hnil _]|(_ & Hall & Hex & sp & Hy & ->)].
  - exfalso. apply Hne. simpl. now rewrite Hnil.
  - exists sp, (body (Dt req) sp). simpl.
    split; [now rewrite last_reverse, trajectory_body|].
    split; [reflexivity|]. split; [reflexivity|].
    split; [|split; [reflexivity|split]].
    + unfold body. destruct (acceleration sp). reflexivity.
    + unfold body. destruct (acceleration sp). reflexivity.
    + split.
      * apply Forall_reverse. exact Hall.
      * apply Exists_exists. apply Exists_exists in Hex.
        destruct Hex as (p & Hp & HY). exists p.
        split; [|exact HY]. rewrite elem_of_reverse. exact Hp.
Qed.

(** An instance, with every hypothesis checked by evaluation. *)
Lemma result_is_one_step_past_last_point_witness :
  let req := mkRequest 50 0 2 0.1 in
  exists resp,
    simulate Cos_at_0 Sin_at_0 req = Some resp /\
    Trajectory resp <> [] /\
    exists sp sf,
      last (Trajectory resp) = Some (point_of sp) /\
      sf = body (Dt req) sp /\
      Range resp = x sf /\
      Range resp = X (point_of sp) + vx sf * Dt req /\
      FinalVelocity resp = speed sf /\
      TimeOfFlight resp = T (point_of sp) + Dt req /\
      Forall (fun p => (Y p <=? MaxHeight resp) = true) (Trajectory resp) /\
      Exists (fun p => Y p = MaxHeight resp) (Trajectory resp).
Proof.
  intros req.
  assert (H : exists resp, simulate Cos_at_0 Sin_at_0 req = Some resp
                           /\ Trajectory resp <> []).
  { eexists. split; [vm_compute; reflexivity|]. vm_compute. discriminate. }
  destruct H as (resp & Hsim & Hne). exists resp.
  split; [exact Hsim|]. split; [exact Hne|].
  exact (result_is_one_step_past_last_point Cos_at_0 Sin_at_0 req resp Hsim Hne).
Defined.

(** C5, the claim as stated fails: after six steps of a level launch from
    2 m, the returned range and final velocity are not the [x] and the [v] of
    the last trajectory point. *)
Lemma range_is_not_last_point :
  let req := mkRequest 50 0 2 0.1 in
  accepted req = true /\
  exists resp p,
    simulate Cos_at_0 Sin_at_0 req = Some resp /\
    last (Trajectory resp) = Some p /\
    (Range resp =? X p) = false /\
    (FinalVelocity resp =? V p) = false.
Proof.
  split; [reflexivity|]. eexists _, _.
  split; [vm_compute; reflexivity|].
  split; [reflexivity|]. split; reflexivity.
Qed.

(** *** The step at zero speed *)

(** C8.  In a step whose speed [v] compares equal to 0 the accelerations are
    [ax = 0] and [ay = -g], whatever the division by [v] gave; with a finite
    time step the update is then [vx' == vx] (for Go's [==]: adding [0 * dt]
    can only turn [-0] into [+0]) and [vy' = vy - g*dt]. *)
Theorem zero_speed_step (s : state) (dt : float) :
  (speed s =? 0) = true ->
  is_finite dt = true ->
  acceleration s = (0, - g) /\
  (vx (body dt s) =? vx s) = true /\
  vy (body dt s) = vy s - g * dt.
Proof.
  intros Hv Hdt.
  assert (Ha : acceleration s = (0, - g)).
  { unfold acceleration. now rewrite Hv. }
  split; [exact Ha|]. unfold body. rewrite Ha. simpl. split.
  - apply add_zero_mul_eqb; [|exact Hdt].
    eapply sqrt_sum_squares_zero. exact Hv.
  - exact (add_opp_mul (vy s) g dt).
Qed.

(** An instance, with every hypothesis checked by evaluation. *)
Lemma zero_speed_step_witness :
  let s := mkState 0 0 3 5 1 [] 5 0 in
  let dt := 0.01 in
  (speed s =? 0) = true /\ is_finite dt = true /\
  acceleration s = (0, - g) /\
  (vx (body dt s) =? vx s) = true /\
  vy (body dt s) = vy s - g * dt.
Proof.
  intros s dt.
  split; [reflexivity|]. split; [reflexivity|].
  apply (zero_speed_step s dt); reflexivity.
Defined.

(** *** A launch below the ground *)

(** C10, as amended.  With [h0 < 0] (which the handler accepts) the loop is
    not entered: the trajectory is empty, [stepCount], [range] and
    [timeOfFlight] are 0 and [maxHeight] is [h0].  [finalVelocity] is the
    speed computed from the two launch components, [v0] only up to the
    rounding of [float64]. *)
Theorem launch_below_ground (Cos Sin : float -> float)
    (req : SimulationRequest) :
  (H0 req <? 0) = true ->
  simulate Cos Sin req
  = Some {| Trajectory := [];
            Range := 0;
            MaxHeight := H0 req;
            FinalVelocity := speed (launch Cos Sin req);
            TimeOfFlight := 0;
            SimulationSteps := 0 |}.
Proof.
  intros H. apply ltb_leb_false in H.
  unfold simulate, simulate_fuel, landing.
  rewrite enough_fuel_S, flight_guard_fails by exact H.
  reflexivity.
Qed.

(** An instance, with every hypothesis checked by evaluation. *)
Lemma launch_below_ground_witness :
  let req := mkRequest 50 0 (-2) 0.01 in
  (H0 req <? 0) = true /\
  simulate Cos_at_0 Sin_at_0 req
  = Some {| Trajectory := [];
            Range := 0;
            MaxHeight := H0 req;
            FinalVelocity := speed (launch Cos_at_0 Sin_at_0 req);
            TimeOfFlight := 0;
            SimulationSteps := 0 |}.
Proof.
  intros req. split; [reflexivity|].
  apply (launch_below_ground Cos_at_0 Sin_at_0 req). reflexivity.
Defined.

(** C10, the claim as stated fails: the returned final velocity is not
    [v0] when the squares of the launch components overflow. *)
Lemma final_velocity_is_not_v0 :
  let req := mkRequest 1e200 0 (-1) 0.01 in
  accepted req = true /\ (H0 req <? 0) = true /\
  exists resp,
    simulate Cos_at_0 Sin_at_0 req = Some resp /\
    FinalVelocity resp = infinity /\
    (FinalVelocity resp =? V0 req) = false.
Proof.
  split; [reflexivity|]. split; [reflexivity|]. eexists.
  split; [vm_compute; reflexivity|]. split; reflexivity.
Qed.

End ProjectileProofs.

(** ** lab02: properties of the heat-conduction solver *)

Module HeatProofs.
Import Go GoFacts Heat.
Local Open Scope float_scope.

(** *** Slices *)

Lemma make_ok (allocates : Z -> bool) (n : Z) :
  (0 <= n)%Z -> allocates n = true ->
  make allocates n = Ret (replicate (Z.to_nat n) 0).
Proof.
  intros H Ha. unfold make. destruct (Z.ltb_spec n 0); [lia|].
  now rewrite Ha.
Qed.

Lemma make_negative (allocates : Z -> bool) (n : Z) :
  (n < 0)%Z -> make allocates n = Panic.
Proof. intros H. unfold make. destruct (Z.ltb_spec n 0); [reflexivity|lia]. Qed.

Lemma make_refused (allocates : Z -> bool) (n : Z) :
  allocates n = false -> make allocates n = Panic.
Proof. intros Ha. unfold make. rewrite Ha. now destruct (n <? 0)%Z. Qed.

Lemma index_ok (s : list float) (i : Z) (v : float) :
  (0 <= i)%Z -> s !! Z.to_nat i = Some v -> index s i = Ret v.
Proof.
  intros Hi Hv. unfold index.
  destruct (Z.ltb_spec i 0); [lia|]. now rewrite Hv.
Qed.

Lemma index_in_range (s : list float) (i : Z) :
  (0 <= i < len s)%Z -> exists v, s !! Z.to_nat i = Some v /\ index s i = Ret v.
Proof.
  intros Hi. unfold len in Hi.
  destruct (lookup_lt_is_Some_2 s (Z.to_nat i)) as [v Hv]; [lia|].
  exists v. split; [assumption|]. apply index_ok; [lia|assumption].
Qed.

Lemma index_out_of_range (s : list float) (i : Z) :
  (i < 0 \/ len s <= i)%Z -> index s i = Panic.
Proof.
  intros Hi. unfold index, len in *.
  destruct (Z.ltb_spec i 0); [reflexivity|].
  rewrite lookup_ge_None_2; [reflexivity|lia].
Qed.

Lemma store_ok (s : list float) (i : Z) (v : float) :
  (0 <= i < len s)%Z -> store s i v = Ret (<[Z.to_nat i := v]> s).
Proof.
  intros Hi. unfold store.
  destruct (Z.leb_spec 0 i); [|lia]. destruct (Z.ltb_spec i (len s)); [|lia].
  reflexivity.
Qed.

Lemma store_out_of_range (s : list float) (i : Z) (v : float) :
  (i < 0 \/ len s <= i)%Z -> store s i v = Panic.
Proof.
  intros Hi. unfold store.
  destruct (Z.leb_spec 0 i), (Z.ltb_spec i (len s)); try reflexivity; lia.
Qed.

Lemma len_insert (s : list float) (i : nat) (v : float) :
  len (<[i := v]> s) = len s.
Proof. unfold len. now rewrite length_insert. Qed.

Lemma copy_same_length (dst src : list float) :
  length dst = length src -> copy dst src = src.
Proof.
  intros H. unfold copy. rewrite H, firstn_all, <- H, drop_all.
  apply app_nil_r.
Qed.

(** *** The finite-difference sweep *)

(** The sweep over [i .. i+count-1] does not panic when these cells are
    interior; it writes the scheme there and leaves the other cells of
    [Tnew] alone. *)
Lemma stencil_spec (r : float) (T : list float) (count : nat) :
  forall (i : Z) (Tnew : list float),
    (1 <= i)%Z -> (i + Z.of_nat count <= len T - 1)%Z -> len Tnew = len T ->
    exists Tnew',
      stencil count i r T Tnew = Ret Tnew' /\
      len Tnew' = len T /\
      (forall j : nat, ~ (i <= Z.of_nat j < i + Z.of_nat count)%Z ->
                       Tnew' !! j = Tnew !! j) /\
      (forall (j : nat) a b c,
          (i <= Z.of_nat j < i + Z.of_nat count)%Z ->
          T !! (j - 1)%nat = Some a -> T !! j = Some b ->
          T !! (j + 1)%nat = Some c ->
          Tnew' !! j = Some (scheme r a b c)).
Proof.
  induction count as [|count IH]; intros i Tnew Hi Hend Hlen.
  - exists Tnew. simpl. repeat split; auto. intros; lia.
  - simpl.
    destruct (index_in_range T i) as (b & Hb & ->); [lia|].
    destruct (index_in_range T (i + 1)) as (c & Hc & ->); [lia|].
    destruct (index_in_range T (i - 1)) as (a & Ha & ->); [lia|].
    simpl. rewrite store_ok by lia. simpl.
    destruct (IH (i + 1)%Z (<[Z.to_nat i := scheme r a b c]> Tnew))
      as (Tnew' & Hrun & Hlen' & Hout & Hin);
      [lia|lia|now rewrite len_insert|].
    exists Tnew'. split; [exact Hrun|]. split; [exact Hlen'|]. split.
    + intros j Hj. rewrite Hout by lia.
      apply list_lookup_insert_ne. lia.
    + intros j a' b' c' Hj Ha' Hb' Hc'.
      destruct (Z.eq_dec (Z.of_nat j) i) as [E|E].
      * rewrite Hout by lia.
        assert (j = Z.to_nat i) by lia. subst j.
        replace (Z.to_nat i - 1)%nat with (Z.to_nat (i - 1)) in Ha' by lia.
        replace (Z.to_nat i + 1)%nat with (Z.to_nat (i + 1)) in Hc' by lia.
        assert (a' = a) by congruence. assert (b' = b) by congruence.
        assert (c' = c) by congruence. subst.
        apply list_lookup_insert_eq. unfold len in *. lia.
      * apply (Hin j a' b' c'); auto. lia.
Qed.

(** *** One pass of the time loop *)

Section Pass.
Variable params : SimulationParams.
Variables (n : Z) (r : float) (centerIdx steps : Z).

(** On buffers of the grid size, [update] does not panic; both buffers end
    up equal, with the boundary cells reset and the scheme applied to every
    interior cell of the old grid. *)
Lemma update_spec (T Tnew : list float) :
  (1 <= n)%Z -> len T = n -> len Tnew = n ->
  exists T',
    update params n r T Tnew = Ret (T', T') /\
    clamped params n T' /\
    (forall (j : nat) a b c,
        (1 <= Z.of_nat j <= n - 2)%Z ->
        T !! (j - 1)%nat = Some a -> T !! j = Some b ->
        T !! (j + 1)%nat = Some c ->
        T' !! j = Some (scheme r a b c)).
Proof.
  intros Hn HT HTnew. unfold update.
  assert (Hst : exists Tnew',
             stencil (Z.to_nat (n - 2)) 1 r T Tnew = Ret Tnew' /\
             len Tnew' = n /\
             (forall (j : nat) a b c,
                 (1 <= Z.of_nat j <= n - 2)%Z ->
                 T !! (j - 1)%nat = Some a -> T !! j = Some b ->
                 T !! (j + 1)%nat = Some c ->
                 Tnew' !! j = Some (scheme r a b c))).
  { destruct (Z.le_gt_cases 2 n) as [H2|H2].
    - destruct (stencil_spec r T (Z.to_nat (n - 2)) 1 Tnew)
        as (Tnew' & Hrun & Hlen & _ & Hin); [lia|lia|congruence|].
      exists Tnew'. split; [exact Hrun|]. split; [congruence|].
      intros j a b c Hj. apply Hin. lia.
    - replace (Z.to_nat (n - 2)) with 0%nat by lia.
      exists Tnew. split; [reflexivity|]. split; [assumption|].
      intros; lia. }
  destruct Hst as (T1 & -> & Hlen1 & Hin). simpl.
  rewrite store_ok by lia. simpl.
  rewrite store_ok by (rewrite len_insert; lia). simpl.
  set (T3 := <[Z.to_nat (n - 1) := RightBoundary params]>
               (<[Z.to_nat 0 := LeftBoundary params]> T1)).
  assert (Hlen3 : len T3 = n).
  { unfold T3. now rewrite !len_insert. }
  rewrite copy_same_length by (unfold len in *; lia).
  exists T3. split; [reflexivity|]. split; [split; [exact Hlen3|split]|].
  - unfold T3. apply list_lookup_insert_eq.
    rewrite length_insert. unfold len in *. lia.
  - intros H2. unfold T3.
    rewrite list_lookup_insert_ne by lia.
    apply list_lookup_insert_eq. unfold len in *. lia.
  - intros j a b c Hj Ha Hb Hc. unfold T3.
    rewrite !list_lookup_insert_ne by lia. eauto.
Qed.

(** Any number of passes runs without a panic and keeps the sizes; after
    the first pass the boundary cells hold the boundary temperatures. *)
Lemma updates_spec (T0 Tnew0 : list float) (t0 : float) (k : nat) :
  (1 <= n)%Z -> len T0 = n -> len Tnew0 = n ->
  exists Tk Tnewk tk,
    updates params n r k T0 Tnew0 t0 = Ret (Tk, Tnewk, tk) /\
    len Tk = n /\ len Tnewk = n /\
    ((1 <= k)%nat -> clamped params n Tk).
Proof.
  intros Hn HT HTnew. induction k as [|k IH].
  - exists T0, Tnew0, t0. simpl. split; [reflexivity|].
    split; [assumption|]. split; [assumption|]. intros; lia.
  - destruct IH as (Tk & Tnewk & tk & Hrun & HTk & HTnewk & _).
    destruct (update_spec Tk Tnewk Hn HTk HTnewk) as (T' & Hup & Hcl & _).
    exists T', T', (tk + TimeStep params). simpl.
    rewrite Hrun. simpl. rewrite Hup. simpl.
    pose proof Hcl as (Hlen & _). split; [reflexivity|].
    split; [exact Hlen|]. split; [exact Hlen|]. intros _. exact Hcl.
Qed.

Lemma updates_S (T0 Tnew0 : list float) (t0 : float) (k : nat)
    (Tk Tnewk : list float) (tk : float) (bufs : list float * list float) :
  updates params n r k T0 Tnew0 t0 = Ret (Tk, Tnewk, tk) ->
  update params n r Tk Tnewk = Ret bufs ->
  updates params n r (S k) T0 Tnew0 t0
  = Ret (fst bufs, snd bufs, tk + TimeStep params).
Proof. intros H1 H2. simpl. rewrite H1. simpl. rewrite H2. reflexivity. Qed.
End Pass.

(** *** The time loop *)

Lemma sampled_steps_S (steps from : Z) (count : nat) :
  sampled_steps steps from (S count)
  = (if sampled steps from then [from] else [])
      ++ sampled_steps steps (from + 1) count.
Proof.
  unfold sampled_steps. rewrite seqZ_cons by lia.
  rewrite filter_cons.
  replace (Z.pred (Z.of_nat (S count))) with (Z.of_nat count) by lia.
  replace (Z.succ from) with (from + 1)%Z by lia.
  case_decide as H; destruct (sampled steps from); simpl in *;
    try reflexivity; tauto.
Qed.

Lemma center_in_range (n : Z) : (1 <= n)%Z -> (0 <= Z.quot n 2 < n)%Z.
Proof.
  intros H. rewrite Z.quot_div_nonneg by lia.
  split; [apply Z.div_pos; lia|apply Z.div_lt; lia].
Qed.

Section Loop.
Variable params : SimulationParams.
Variables (n : Z) (r : float) (centerIdx steps : Z).
Variables (T0 Tnew0 : list float) (t0 : float).
Hypothesis Hn : (1 <= n)%Z.
Hypothesis Hcenter : (0 <= centerIdx < n)%Z.
Hypothesis HT0 : len T0 = n.
Hypothesis HTnew0 : len Tnew0 = n.

(** From a state reached by [k] passes, [count] more passes of the loop run
    without a panic, reach the state of [k + count] passes, and append one
    frame per sampled loop counter, in order and nothing else. *)
Lemma time_loop_spec (count : nat) :
  forall (k : nat) (s : state),
    updates params n r k T0 Tnew0 t0 = Ret (T s, Tnew s, currentTime s) ->
    exists s' frames,
      time_loop params n r centerIdx steps count (Z.of_nat k) s = Ret s' /\
      results s' = results s ++ frames /\
      updates params n r (k + count) T0 Tnew0 t0
      = Ret (T s', Tnew s', currentTime s') /\
      Forall2 (frame_of_step params n r centerIdx T0 Tnew0 t0)
        (sampled_steps steps (Z.of_nat k) count) frames.
Proof.
  induction count as [|count IH]; intros k s Hk.
  - exists s, []. simpl. rewrite app_nil_r, Nat.add_0_r.
    split; [reflexivity|]. split; [reflexivity|]. split; [exact Hk|].
    constructor.
  - destruct (updates_spec params n r T0 Tnew0 t0 k Hn HT0 HTnew0)
      as (Tk & Tnewk & tk & Hk' & HTk & HTnewk & _).
    rewrite Hk in Hk'. injection Hk' as <- <- <-.
    destruct (update_spec params n r (T s) (Tnew s) Hn HTk HTnewk)
      as (T' & Hup & Hcl & _).
    pose proof (updates_S params n r T0 Tnew0 t0 k _ _ _ _ Hk Hup) as HSk.
    simpl in HSk.
    destruct (index_in_range T' centerIdx) as (c & _ & Hc);
      [destruct Hcl as [-> _]; exact Hcenter|].
    rewrite sampled_steps_S.
    cbn [time_loop]. unfold time_step. rewrite Hup. cbn [bind fst snd].
    change ((Z.rem (Z.of_nat k) 10 =? 0)%Z || (Z.of_nat k =? steps - 1)%Z)
      with (sampled steps (Z.of_nat k)).
    replace (Z.of_nat k + 1)%Z with (Z.of_nat (S k)) by lia.
    replace (k + S count)%nat with (S k + count)%nat by lia.
    destruct (sampled steps (Z.of_nat k)).
    + unfold snapshot at 1. rewrite Hc. cbn [bind].
      set (frame := {| Temperatures := T'; Time := currentTime s + TimeStep params;
                       CenterTemp := c; Stable := r <=? 0.5 |}).
      destruct (IH (S k) {| T := T'; Tnew := T';
                            currentTime := currentTime s + TimeStep params;
                            results := results s ++ [frame] |})
        as (s' & frames & Hrun & Hres & Hfin & Hfr); [exact HSk|].
      exists s', (frame :: frames). split; [exact Hrun|].
      split; [rewrite Hres; simpl; now rewrite <- app_assoc|].
      split; [exact Hfin|]. simpl. constructor; [|exact Hfr].
      exists T', T', (currentTime s + TimeStep params).
      rewrite Nat2Z.id. split; [exact HSk|].
      unfold snapshot. rewrite Hc. reflexivity.
    + destruct (IH (S k) {| T := T'; Tnew := T';
                            currentTime := currentTime s + TimeStep params;
                            results := results s |})
        as (s' & frames & Hrun & Hres & Hfin & Hfr); [exact HSk|].
      exists s', frames. auto.
Qed.
End Loop.

Lemma snapshot_inv (r : float) (centerIdx : Z) (T : list float) (time : float)
    (frame : SimulationResult) :
  snapshot r centerIdx T time = Ret frame ->
  Temperatures frame = T /\ Time frame = time /\
  Stable frame = (r <=? 0.5) /\
  T !! Z.to_nat centerIdx = Some (CenterTemp frame).
Proof.
  unfold snapshot, index.
  destruct (centerIdx <? 0)%Z; [discriminate|].
  destruct (T !! Z.to_nat centerIdx) as [c|]; [|discriminate].
  simpl. intros [= <-]. auto.
Qed.

(** A frame appended by the loop shows a grid with the boundary cells at the
    boundary temperatures, and the flag [r <= 0.5]. *)
Lemma frame_of_step_inv (params : SimulationParams) (n : Z) (r : float)
    (centerIdx : Z) (T0 Tnew0 : list float) (t0 : float) (step : Z)
    (frame : SimulationResult) :
  (1 <= n)%Z -> len T0 = n -> len Tnew0 = n ->
  frame_of_step params n r centerIdx T0 Tnew0 t0 step frame ->
  clamped params n (Temperatures frame) /\ Stable frame = (r <=? 0.5).
Proof.
  intros Hn HT HTnew (Tk & Tnewk & tk & Hrun & Hsnap).
  destruct (updates_spec params n r T0 Tnew0 t0 (S (Z.to_nat step)) Hn HT HTnew)
    as (Tk' & Tnewk' & tk' & Hrun' & _ & _ & Hcl).
  rewrite Hrun in Hrun'. injection Hrun' as <- <- <-.
  destruct (snapshot_inv _ _ _ _ _ Hsnap) as (-> & _ & -> & _).
  split; [apply Hcl; lia|reflexivity].
Qed.

(** *** The whole run *)

Section Run.
Variable int_oob : float -> Z.
Variable allocates : Z -> bool.
Variable format_f : float -> string.
Variable params : SimulationParams.

Let n := grid_size int_oob params.
Let r := courant params.
Let steps := step_count int_oob params.
Let centerIdx := Z.quot n 2.

(** With at least one cell, and the two buffers allocated, the set-up does
    not panic: the grid holds the initial temperature inside and the boundary
    temperatures at its ends, and the one frame recorded is its snapshot at
    time 0. *)
Lemma initialize_spec :
  (1 <= n)%Z -> allocates n = true ->
  exists s0 first,
    initialize int_oob allocates params = Ret s0 /\
    results s0 = [first] /\ currentTime s0 = 0 /\
    len (T s0) = n /\ len (Tnew s0) = n /\
    clamped params n (T s0) /\
    (forall j : nat, (1 <= Z.of_nat j <= n - 2)%Z ->
                     T s0 !! j = Some (InitialTemp params)) /\
    snapshot r centerIdx (T s0) 0 = Ret first.
Proof.
  intros Hn Ha. unfold initialize. fold n r centerIdx.
  rewrite make_ok by (lia || exact Ha). cbn [bind].
  set (Tz := replicate (Z.to_nat n) 0).
  set (Ti := (fun _ : float => InitialTemp params) <$> Tz).
  assert (HTz : len Tz = n).
  { unfold len, Tz. rewrite length_replicate. lia. }
  assert (HTi : len Ti = n).
  { unfold len, Ti. rewrite length_fmap. exact HTz. }
  rewrite store_ok by lia. cbn [bind].
  rewrite store_ok by (rewrite len_insert; lia). cbn [bind].
  set (Tb := <[Z.to_nat (n - 1) := RightBoundary params]>
               (<[Z.to_nat 0 := LeftBoundary params]> Ti)).
  assert (HTb : len Tb = n) by (unfold Tb; now rewrite !len_insert).
  destruct (index_in_range Tb centerIdx) as (c & Hc & Hidx);
    [rewrite HTb; apply center_in_range, Hn|].
  unfold snapshot at 1. rewrite Hidx. cbn [bind].
  eexists _, _. split; [reflexivity|]. cbn [results currentTime T Tnew].
  split; [reflexivity|]. split; [reflexivity|].
  split; [exact HTb|]. split; [exact HTz|]. split; [|split].
  - split; [exact HTb|]. split.
    + unfold Tb. apply list_lookup_insert_eq.
      rewrite length_insert. unfold len in HTi. lia.
    + intros H2. unfold Tb. rewrite list_lookup_insert_ne by lia.
      apply list_lookup_insert_eq. unfold len in HTi. lia.
  - intros j Hj. unfold Tb. rewrite !list_lookup_insert_ne by lia.
    unfold Ti. rewrite list_lookup_fmap.
    unfold Tz. rewrite lookup_replicate_2 by lia. reflexivity.
  - unfold snapshot. rewrite Hidx. reflexivity.
Qed.

(** From there the time loop runs without a panic: it makes [steps] passes
    (none when [steps] is negative), and the frames after the first are
    those of the sampled loop counters. *)
Lemma integrate_spec :
  (1 <= n)%Z -> allocates n = true ->
  exists s0 final first frames,
    initialize int_oob allocates params = Ret s0 /\
    integrate int_oob allocates params = Ret final /\
    snapshot r centerIdx (T s0) 0 = Ret first /\
    clamped params n (T s0) /\
    results final = first :: frames /\
    updates params n r (Z.to_nat steps) (T s0) (Tnew s0) 0
    = Ret (T final, Tnew final, currentTime final) /\
    Forall2 (frame_of_step params n r centerIdx (T s0) (Tnew s0) 0)
      (sampled_steps steps 0 (Z.to_nat steps)) frames /\
    len (T s0) = n /\ len (Tnew s0) = n /\
    (forall j : nat, (1 <= Z.of_nat j <= n - 2)%Z ->
                     T s0 !! j = Some (InitialTemp params)).
Proof.
  intros Hn Ha.
  destruct (initialize_spec Hn Ha)
    as (s0 & first & Hinit & Hres & Htime & HT & HTnew & Hcl & Hint & Hsnap).
  destruct (time_loop_spec params n r centerIdx steps (T s0) (Tnew s0) 0
              Hn (center_in_range n Hn) HT HTnew (Z.to_nat steps) 0%nat s0)
    as (final & frames & Hrun & Hfinal & Hupd & Hfr).
  { simpl. now rewrite Htime. }
  exists s0, final, first, frames.
  split; [exact Hinit|]. split.
  { unfold integrate. rewrite Hinit. cbn [bind]. exact Hrun. }
  split; [exact Hsnap|]. split; [exact Hcl|].
  split; [now rewrite Hfinal, Hres|]. auto 7.
Qed.

(** Without a cell the set-up panics: [make] on a negative size, or the
    store to [T[0]] on the empty grid. *)
Lemma initialize_panics :
  (n < 1)%Z -> initialize int_oob allocates params = Panic.
Proof.
  intros Hn. unfold initialize. fold n.
  destruct (Z.ltb_spec n 0) as [Hneg|Hnn].
  - now rewrite make_negative.
  - replace n with 0%Z by lia. unfold make. cbn [Z.ltb Z.compare].
    destruct (allocates 0); reflexivity.
Qed.

(** It panics as well when the runtime refuses the grid. *)
Lemma initialize_refused :
  allocates n = false -> initialize int_oob allocates params = Panic.
Proof.
  intros Ha. unfold initialize. fold n. now rewrite make_refused.
Qed.

(** The run ends in a panic in both cases, once past the gate. *)
Lemma run_panics :
  (0.5 <? r) = false ->
  (n < 1)%Z \/ allocates n = false ->
  simulateHeatConduction int_oob allocates format_f params = Panic.
Proof.
  intros Hgate Hcase. unfold simulateHeatConduction, integrate. fold r.
  rewrite Hgate.
  destruct Hcase as [Hn|Ha];
    [rewrite (initialize_panics Hn)|rewrite (initialize_refused Ha)];
    reflexivity.
Qed.

(** What a run that returned frames has done: it passed the gate, on a grid
    of at least one cell that the runtime allocated, and set up and
    integrated as [integrate_spec] says. *)
Lemma run_returns (frames : list SimulationResult) :
  simulateHeatConduction int_oob allocates format_f params
  = Ret (frames, None) ->
  (0.5 <? r) = false /\ (1 <= n)%Z /\ allocates n = true /\
  exists s0 final first rest,
    frames = first :: rest /\
    initialize int_oob allocates params = Ret s0 /\
    integrate int_oob allocates params = Ret final /\
    snapshot r centerIdx (T s0) 0 = Ret first /\
    clamped params n (T s0) /\
    updates params n r (Z.to_nat steps) (T s0) (Tnew s0) 0
    = Ret (T final, Tnew final, currentTime final) /\
    Forall2 (frame_of_step params n r centerIdx (T s0) (Tnew s0) 0)
      (sampled_steps steps 0 (Z.to_nat steps)) rest /\
    len (T s0) = n /\ len (Tnew s0) = n /\
    (forall j : nat, (1 <= Z.of_nat j <= n - 2)%Z ->
                     T s0 !! j = Some (InitialTemp params)).
Proof.
  intros Hrun.
  destruct (0.5 <? r) eqn:Hgate.
  { unfold simulateHeatConduction in Hrun. fold r in Hrun.
    rewrite Hgate in Hrun. discriminate. }
  destruct (Z.le_gt_cases 1 n) as [Hn|Hn];
    [|rewrite run_panics in Hrun by (exact Hgate || (left; lia));
      discriminate].
  destruct (allocates n) eqn:Ha;
    [|rewrite run_panics in Hrun by (exact Hgate || (right; exact Ha));
      discriminate].
  split; [reflexivity|]. split; [exact Hn|]. split; [reflexivity|].
  destruct (integrate_spec Hn Ha)
    as (s0 & final & first & rest & Hinit & Hint & Hsnap & Hcl & Hres & Hupd
        & Hfr & HT & HTnew & Hcells).
  unfold simulateHeatConduction in Hrun. fold r in Hrun.
  rewrite Hgate, Hint in Hrun. cbn [bind] in Hrun. rewrite Hres in Hrun.
  injection Hrun as <-.
  exists s0, final, first, rest. auto 12.
Qed.
End Run.

(** Every frame of a run that returned shows a grid with the boundary cells
    at the boundary temperatures, and carries the value of the test
    [r <= 0.5]. *)
Lemma frames_clamped_and_flagged (int_oob : float -> Z)
    (allocates : Z -> bool) (format_f : float -> string)
    (params : SimulationParams) (frames : list SimulationResult) :
  simulateHeatConduction int_oob allocates format_f params
  = Ret (frames, None) ->
  Forall (fun frame =>
            clamped params (grid_size int_oob params) (Temperatures frame) /\
            Stable frame = (courant params <=? 0.5)) frames.
Proof.
  intros Hrun.
  destruct (run_returns _ _ _ _ _ Hrun)
    as (_ & Hn & _ & s0 & final & first & rest & -> & _ & _ & Hsnap & Hcl & _
        & Hfr & HT & HTnew & _).
  constructor.
  - destruct (snapshot_inv _ _ _ _ _ Hsnap) as (-> & _ & -> & _).
    split; [exact Hcl|reflexivity].
  - clear -Hfr Hn HT HTnew.
    induction Hfr as [|step frame steps' frames' Hone _ IH]; constructor;
      [|exact IH].
    exact (frame_of_step_inv _ _ _ _ _ _ _ _ _ Hn HT HTnew Hone).
Qed.

Lemma sampled_steps_spec (steps step : Z) :
  step ∈ sampled_steps steps 0 (Z.to_nat steps) <->
  (0 <= step < steps)%Z /\ (Z.rem step 10 = 0%Z \/ step = (steps - 1)%Z).
Proof.
  unfold sampled_steps, sampled.
  rewrite list_elem_of_filter, elem_of_seqZ, orb_True, !Is_true_true,
    !Z.eqb_eq.
  split; intros [H1 H2]; (split; [lia|assumption]) || (split; [assumption|lia]).
Qed.

(** [int(f)] is the truncation of [f] whenever that is an [int]. *)
Lemma int_of_float64_trunc (int_oob : float -> Z) (f : float) (z : Z) :
  SFtrunc (Prim2SF f) = Some z -> (min_int <= z <= max_int)%Z ->
  int_of_float64 int_oob f = z.
Proof.
  intros Hz Hrange. unfold int_of_float64. rewrite Hz.
  destruct (Z.leb_spec min_int z); [|lia].
  destruct (Z.leb_spec z max_int); [reflexivity|lia].
Qed.

(** *** The stability gate *)

(** C1, as amended.  When [r > 0.5] the run returns no frame and the error
    whose text carries the formatted ratio.  When [r <= 0.5] the run reports
    no error: whenever it returns, it returns at least one frame, the first
    of which is the initial state at time 0; and it does not return, but
    ends in a panic, when the grid has no cell or [make] refuses its
    length. *)
Theorem stability_gate (int_oob : float -> Z) (allocates : Z -> bool)
    (format_f : float -> string) (params : SimulationParams) :
  ((0.5 <? courant params) = true ->
   simulateHeatConduction int_oob allocates format_f params
   = Ret ([], Some ("unstable parameters: r = "
                      ++ format_f (courant params) ++ " > 0.5")%string)) /\
  ((courant params <=? 0.5) = true ->
   forall frames err,
     simulateHeatConduction int_oob allocates format_f params
     = Ret (frames, err) ->
     err = None /\
     exists first rest,
       frames = first :: rest /\
       Time first = 0 /\
       clamped params (grid_size int_oob params) (Temperatures first)) /\
  ((courant params <=? 0.5) = true ->
   (grid_size int_oob params < 1)%Z
   \/ allocates (grid_size int_oob params) = false ->
   simulateHeatConduction int_oob allocates format_f params = Panic).
Proof.
  split; [|split].
  - unfold simulateHeatConduction. intros ->. reflexivity.
  - intros Hr frames err Hrun.
    assert (Herr : err = None).
    { unfold simulateHeatConduction in Hrun.
      rewrite (leb_ltb_false _ _ Hr) in Hrun.
      destruct (integrate int_oob allocates params); [|discriminate].
      now injection Hrun as _ <-. }
    subst err. split; [reflexivity|].
    destruct (run_returns _ _ _ _ _ Hrun)
      as (_ & _ & _ & s0 & final & first & rest & -> & _ & _ & Hsnap & Hcl
          & _).
    exists first, rest. split; [reflexivity|].
    destruct (snapshot_inv _ _ _ _ _ Hsnap) as (-> & -> & _).
    split; [reflexivity|exact Hcl].
  - intros Hr Hcase. apply run_panics; [|exact Hcase].
    exact (leb_ltb_false _ _ Hr).
Qed.

(** Instances, with every hypothesis checked by evaluation. *)
Lemma stability_gate_witness :
  let hot := mkParams 1 1 0.1 0.25 20 100 0 1 in
  let mild := mkParams 1 0.01 0.1 0.25 20 100 0 9.7e-5 in
  let long := mkParams 1e18 0.1 1 1 20 100 0 1 in
  ((0.5 <? courant hot) = true /\
   simulateHeatConduction int_oob_amd64 allocates_amd64 format_f_stub hot
   = Ret ([], Some ("unstable parameters: r = "
                      ++ format_f_stub (courant hot) ++ " > 0.5")%string)) /\
  ((courant mild <=? 0.5) = true /\
   exists frames err,
     simulateHeatConduction int_oob_amd64 allocates_amd64 format_f_stub mild
     = Ret (frames, err) /\
     err = None /\
     exists first rest,
       frames = first :: rest /\
       Time first = 0 /\
       clamped mild (grid_size int_oob_amd64 mild) (Temperatures first)) /\
  ((courant long <=? 0.5) = true /\
   allocates_amd64 (grid_size int_oob_amd64 long) = false /\
   simulateHeatConduction int_oob_amd64 allocates_amd64 format_f_stub long
   = Panic).
Proof.
  intros hot mild long. split; [|split].
  - split; [reflexivity|].
    apply (proj1 (stability_gate int_oob_amd64 allocates_amd64 format_f_stub
                    hot)).
    reflexivity.
  - split; [reflexivity|].
    assert (H : exists frames,
               simulateHeatConduction int_oob_amd64 allocates_amd64
                 format_f_stub mild = Ret (frames, None)).
    { eexists. vm_compute. reflexivity. }
    destruct H as (frames & Hrun). exists frames, None.
    split; [exact Hrun|].
    exact (proj1 (proj2 (stability_gate int_oob_amd64 allocates_amd64
                           format_f_stub mild)) eq_refl frames None Hrun).
  - split; [reflexivity|]. split; [reflexivity|].
    exact (proj2 (proj2 (stability_gate int_oob_amd64 allocates_amd64
                           format_f_stub long))
             eq_refl (or_intror eq_refl)).
Defined.

(** C1, the claim as stated fails: with [r <= 0.5] the run can still end in a
    panic, with no frame at all.  A negative length gives a grid without a
    cell, and the store to [T[0]] is out of range; with every parameter
    positive, a quotient [length/dx] beyond the range of [int] gives (on
    amd64) a negative size for [make], and a grid of [1e18 + 1] cells is a
    length out of range for [make]. *)
Lemma stable_ratio_without_frames :
  let short := mkParams (-1) 0.01 1 1 20 100 0 1 in
  let huge := mkParams 1e300 1 1e-100 1 20 100 0 1e-250 in
  let long := mkParams 1e18 0.1 1 1 20 100 0 1 in
  ((courant short <=? 0.5) = true /\
   simulateHeatConduction int_oob_amd64 allocates_amd64 format_f_stub short
   = Panic) /\
  ((courant huge <=? 0.5) = true /\
   (0 <? Length huge) = true /\ (0 <? TimeStep huge) = true /\
   (0 <? SpaceStep huge) = true /\ (0 <? TotalTime huge) = true /\
   (0 <? Alpha huge) = true /\
   simulateHeatConduction int_oob_amd64 allocates_amd64 format_f_stub huge
   = Panic) /\
  ((courant long <=? 0.5) = true /\
   grid_size int_oob_amd64 long = (10 ^ 18 + 1)%Z /\
   simulateHeatConduction int_oob_amd64 allocates_amd64 format_f_stub long
   = Panic).
Proof. repeat split; vm_compute; reflexivity. Qed.

(** *** The boundary cells *)

(** C2, as amended.  With [r <= 0.5] and a grid of at least two cells, the
    frames a run returns are not none, and every one of them has [n]
    temperatures, the first equal to the left and the last to the right
    boundary value. *)
Theorem boundary_cells_fixed (int_oob : float -> Z) (allocates : Z -> bool)
    (format_f : float -> string) (params : SimulationParams)
    (frames : list SimulationResult) :
  (courant params <=? 0.5) = true ->
  (2 <= grid_size int_oob params)%Z ->
  simulateHeatConduction int_oob allocates format_f params
  = Ret (frames, None) ->
  frames <> [] /\
  Forall (fun frame =>
            len (Temperatures frame) = grid_size int_oob params /\
            Temperatures frame !! 0%nat = Some (LeftBoundary params) /\
            Temperatures frame !! Z.to_nat (grid_size int_oob params - 1)
            = Some (RightBoundary params)) frames.
Proof.
  intros Hr Hn Hrun. split.
  - destruct (run_returns _ _ _ _ _ Hrun)
      as (_ & _ & _ & s0 & final & first & rest & -> & _).
    discriminate.
  - eapply Forall_impl; [exact (frames_clamped_and_flagged _ _ _ _ _ Hrun)|].
    simpl. intros frame ((Hlen & Hright & Hleft) & _). auto.
Qed.

(** An instance, with every hypothesis checked by evaluation. *)
Lemma boundary_cells_fixed_witness :
  let params := mkParams 0.4 1 0.1 3 20 100 0 0.004 in
  (courant params <=? 0.5) = true /\
  (2 <= grid_size int_oob_amd64 params)%Z /\
  exists frames,
    simulateHeatConduction int_oob_amd64 allocates_amd64 format_f_stub params
    = Ret (frames, None) /\
    frames <> [] /\
    Forall (fun frame =>
              len (Temperatures frame) = grid_size int_oob_amd64 params /\
              Temperatures frame !! 0%nat = Some (LeftBoundary params) /\
              Temperatures frame
                !! Z.to_nat (grid_size int_oob_amd64 params - 1)
              = Some (RightBoundary params)) frames.
Proof.
  intros params.
  assert (Hr : (courant params <=? 0.5) = true) by reflexivity.
  assert (Hn : (2 <= grid_size int_oob_amd64 params)%Z)
    by (vm_compute; discriminate).
  assert (H : exists frames,
             simulateHeatConduction int_oob_amd64 allocates_amd64
               format_f_stub params = Ret (frames, None)).
  { eexists. vm_compute. reflexivity. }
  destruct H as (frames & Hrun).
  split; [exact Hr|]. split; [exact Hn|]. exists frames.
  split; [exact Hrun|].
  exact (boundary_cells_fixed int_oob_amd64 allocates_amd64 format_f_stub
           params frames Hr Hn Hrun).
Defined.

(** C2, the claim as stated fails: with a positive length so small that
    [length/dx] underflows to 0 the grid has one cell, which holds the right
    boundary value in every frame, not the left one. *)
Lemma single_cell_holds_right_boundary :
  let params := mkParams 0x1p-1074 1 2 1 20 100 0 1 in
  (0 <? Length params) = true /\ (0 <? TimeStep params) = true /\
  (0 <? SpaceStep params) = true /\ (0 <? Alpha params) = true /\
  (courant params <=? 0.5) = true /\
  grid_size int_oob_amd64 params = 1%Z /\
  simulateHeatConduction int_oob_amd64 allocates_amd64 format_f_stub params
  = Ret ([ {| Temperatures := [0]; Time := 0; CenterTemp := 0;
              Stable := true |};
           {| Temperatures := [0]; Time := 1; CenterTemp := 0;
              Stable := true |} ], None) /\
  (0 =? LeftBoundary params) = false.
Proof. repeat split; vm_compute; reflexivity. Qed.

(** *** Steps and sampling *)

(** C6, as amended.  A run with [r <= 0.5] that returns has made exactly
    [steps = int(totalTime/dt)] passes: the quotient truncated toward zero
    when that is an [int], so its floor when it is not negative, and no pass
    (and no frame but the initial one) when it is.  Beyond the initial frame
    it returns one frame per sampled loop counter, in order and no other:
    the counters [0 <= step < steps] that are a multiple of 10 or the last
    one.  Counting the passes from 1, these are the passes 1, 11, 21, ...
    and the final one; the frame shows the state after that pass. *)
Theorem frames_at_sampled_steps (int_oob : float -> Z)
    (allocates : Z -> bool) (format_f : float -> string)
    (params : SimulationParams) (frames : list SimulationResult) :
  let n := grid_size int_oob params in
  let r := courant params in
  let steps := step_count int_oob params in
  (r <=? 0.5) = true ->
  simulateHeatConduction int_oob allocates format_f params
  = Ret (frames, None) ->
  exists s0 final first rest,
    initialize int_oob allocates params = Ret s0 /\
    integrate int_oob allocates params = Ret final /\
    frames = first :: rest /\
    updates params n r (Z.to_nat steps) (T s0) (Tnew s0) 0
    = Ret (T final, Tnew final, currentTime final) /\
    Forall2 (frame_of_step params n r (Z.quot n 2) (T s0) (Tnew s0) 0)
      (sampled_steps steps 0 (Z.to_nat steps)) rest /\
    (forall step,
        step ∈ sampled_steps steps 0 (Z.to_nat steps) <->
        (0 <= step < steps)%Z /\
        (Z.rem step 10 = 0%Z \/ step = (steps - 1)%Z)) /\
    (forall z,
        SFfloor (Prim2SF (TotalTime params / TimeStep params)) = Some z ->
        (0 <= z <= max_int)%Z -> steps = z) /\
    (forall z,
        SFtrunc (Prim2SF (TotalTime params / TimeStep params)) = Some z ->
        (min_int <= z <= max_int)%Z -> steps = z) /\
    ((steps <= 0)%Z -> rest = [] /\ T final = T s0).
Proof.
  intros n r steps Hr Hrun.
  destruct (run_returns _ _ _ _ _ Hrun)
    as (_ & _ & _ & s0 & final & first & rest & -> & Hinit & Hint & _ & _
        & Hupd & Hfr & _).
  fold n r steps in Hupd, Hfr.
  exists s0, final, first, rest.
  split; [exact Hinit|]. split; [exact Hint|]. split; [reflexivity|].
  split; [exact Hupd|]. split; [exact Hfr|]. split; [|split; [|split]].
  - apply sampled_steps_spec.
  - intros z Hz Hrange. apply int_of_float64_floor; assumption.
  - intros z Hz Hrange. apply int_of_float64_trunc; assumption.
  - intros Hs. replace (Z.to_nat steps) with 0%nat in Hupd, Hfr by lia.
    split.
    + now inversion Hfr.
    + cbn [updates] in Hupd. now injection Hupd as <- _ _.
Qed.

(** An instance, with every hypothesis checked by evaluation. *)
Lemma frames_at_sampled_steps_witness :
  let params := mkParams 0.4 1 0.1 25 20 100 0 0.004 in
  let n := grid_size int_oob_amd64 params in
  let r := courant params in
  let steps := step_count int_oob_amd64 params in
  (r <=? 0.5) = true /\
  exists frames,
    simulateHeatConduction int_oob_amd64 allocates_amd64 format_f_stub params
    = Ret (frames, None) /\
    exists s0 final first rest,
      initialize int_oob_amd64 allocates_amd64 params = Ret s0 /\
      integrate int_oob_amd64 allocates_amd64 params = Ret final /\
      frames = first :: rest /\
      updates params n r (Z.to_nat steps) (T s0) (Tnew s0) 0
      = Ret (T final, Tnew final, currentTime final) /\
      Forall2 (frame_of_step params n r (Z.quot n 2) (T s0) (Tnew s0) 0)
        (sampled_steps steps 0 (Z.to_nat steps)) rest /\
      (forall step,
          step ∈ sampled_steps steps 0 (Z.to_nat steps) <->
          (0 <= step < steps)%Z /\
          (Z.rem step 10 = 0%Z \/ step = (steps - 1)%Z)) /\
      (forall z,
          SFfloor (Prim2SF (TotalTime params / TimeStep params)) = Some z ->
          (0 <= z <= max_int)%Z -> steps = z) /\
      (forall z,
          SFtrunc (Prim2SF (TotalTime params / TimeStep params)) = Some z ->
          (min_int <= z <= max_int)%Z -> steps = z) /\
      ((steps <= 0)%Z -> rest = [] /\ T final = T s0).
Proof.
  intros params n r steps.
  assert (Hr : (r <=? 0.5) = true) by reflexivity.
  assert (H : exists frames,
             simulateHeatConduction int_oob_amd64 allocates_amd64
               format_f_stub params = Ret (frames, None)).
  { eexists. vm_compute. reflexivity. }
  destruct H as (frames & Hrun).
  split; [exact Hr|]. exists frames. split; [exact Hrun|].
  exact (frames_at_sampled_steps int_oob_amd64 allocates_amd64 format_f_stub
           params frames Hr Hrun).
Defined.

(** C6, the claim as stated fails: in a run of 25 steps of one second the
    frames after the initial one are taken after the passes 1, 11, 21 and 25
    (the frame times), not after every 10th pass (10, 20) and the last. *)
Lemma first_frame_follows_first_step :
  let params := mkParams 0.4 1 0.1 25 20 100 0 0.004 in
  (courant params <=? 0.5) = true /\
  step_count int_oob_amd64 params = 25%Z /\
  (exists frames,
      simulateHeatConduction int_oob_amd64 allocates_amd64 format_f_stub
        params
      = Ret (frames, None) /\
      map Time frames = [0; 1; 11; 21; 25]) /\
  filter (fun k => Is_true (every_tenth_step 25 k)) (seqZ 1 25)
  = [10; 20; 25]%Z.
Proof.
  split; [reflexivity|]. split; [reflexivity|]. split.
  - eexists. split; [vm_compute; reflexivity|]. reflexivity.
  - vm_compute. reflexivity.
Qed.

(** *** One update step *)




(** *** The stable flag *)

(** C9, the code at the failing input: with a time step, a space step and a
    diffusivity of 1e200 the products overflow and [r] is NaN; the gate
    [r > 0.5] does not fire, and every frame returned has [stable = false]. *)
Lemma nan_ratio_passes_gate :
  let params := mkParams 2e200 1e200 1e200 1e200 20 100 0 1e200 in
  (courant params =? courant params) = false /\
  (0.5 <? courant params) = false /\
  simulateHeatConduction int_oob_amd64 allocates_amd64 format_f_stub params
  = Ret ([ {| Temperatures := [100; 20; 0]; Time := 0; CenterTemp := 20;
              Stable := false |};
           {| Temperatures := [100; nan; 0]; Time := 1e200; CenterTemp := nan;
              Stable := false |} ], None).
Proof. repeat split; vm_compute; reflexivity. Qed.

End HeatProofs.

(** ** lab02 frontend: properties of the colour scale *)

Module HeatmapProofs.
Import Go GoFacts Heatmap.
Local Open Scope float_scope.

(** [Math.min(1, x)] by cases on [x < 1]. *)
Lemma Math_min_1 (x : float) :
  not_nan x -> Math_min [1; x] = if x <? 1 then x else 1.
Proof.
  intros H. change (Math_min [1; x]) with (min_from 1 [x]).
  cbn [min_from]. rewrite (is_nan_false _ H).
  change (is_pos_zero 1) with false. now rewrite andb_false_r.
Qed.

(** [Math.max(0, x)] by cases on [0 < x]. *)
Lemma Math_max_0 (x : float) :
  not_nan x -> Math_max [0; x] = if 0 <? x then x else 0.
Proof.
  intros H. change (Math_max [0; x]) with (max_from 0 [x]).
  cbn [max_from]. rewrite (is_nan_false _ H).
  change (is_neg_zero 0) with false. now rewrite andb_false_r.
Qed.

(** Every position at or below the bottom of the scale is drawn in the
    same blue. *)
Theorem color_below_scale (normalized : float) :
  (normalized <=? 0) = true ->
  getTemperatureColor normalized = (0, 0, 255).
Proof.
  intros H. unfold getTemperatureColor.
  assert (Hn : not_nan normalized) by (eapply leb_not_nan_l; exact H).
  assert (Hclamp : Math_max [0; Math_min [1; normalized]] = 0).
  { rewrite (Math_min_1 _ Hn).
    rewrite (leb_ltb_trans_lt normalized 0 1 H eq_refl).
    rewrite (Math_max_0 _ Hn). now rewrite (leb_ltb_false _ _ H). }
  rewrite Hclamp. reflexivity.
Qed.

(** An instance, with every hypothesis checked by evaluation. *)
Lemma color_below_scale_witness :
  (-3.5 <=? 0) = true /\ getTemperatureColor (-3.5) = (0, 0, 255).
Proof. split; [reflexivity|]. apply (color_below_scale (-3.5)). reflexivity. Defined.

(** Every position at or above the top of the scale is drawn in the same
    red. *)
Theorem color_above_scale (normalized : float) :
  (1 <=? normalized) = true ->
  getTemperatureColor normalized = (255, 0, 0).
Proof.
  intros H. unfold getTemperatureColor.
  assert (Hn : not_nan normalized) by (eapply leb_not_nan_r; exact H).
  assert (Hclamp : Math_max [0; Math_min [1; normalized]] = 1).
  { rewrite (Math_min_1 _ Hn). now rewrite (leb_ltb_false _ _ H). }
  rewrite Hclamp. reflexivity.
Qed.

(** An instance, with every hypothesis checked by evaluation. *)
Lemma color_above_scale_witness :
  (1 <=? 7) = true /\ getTemperatureColor 7 = (255, 0, 0).
Proof. split; [reflexivity|]. apply (color_above_scale 7). reflexivity. Defined.

(** *** A frame of equal temperatures *)

Lemma zero_flags_exclusive (x : float) :
  is_neg_zero x && is_pos_zero x = false.
Proof. unfold is_neg_zero, is_pos_zero. destruct (classify x); reflexivity. Qed.

Lemma ltb_irrefl (x : float) : not_nan x -> (x <? x) = false.
Proof. intros H. apply leb_ltb_false, leb_refl, H. Qed.

Lemma min_from_uniform (c : float) (k : nat) :
  not_nan c -> min_from c (replicate k c) = c.
Proof.
  intros H. induction k as [|k IH]; [reflexivity|].
  cbn [replicate min_from].
  now rewrite (is_nan_false _ H), zero_flags_exclusive, (ltb_irrefl _ H).
Qed.

Lemma max_from_uniform (c : float) (k : nat) :
  not_nan c -> max_from c (replicate k c) = c.
Proof.
  intros H. induction k as [|k IH]; [reflexivity|].
  cbn [replicate max_from].
  now rewrite (is_nan_false _ H), andb_comm, zero_flags_exclusive,
    (ltb_irrefl _ H).
Qed.

(** On a frame of [k+1] equal finite temperatures both ends of the scale are
    that temperature. *)
Lemma getMinMaxTemp_uniform (c : float) (k : nat) :
  is_finite c = true ->
  getMinMaxTemp (Some (replicate (S k) c)) = (c, c).
Proof.
  intros H. pose proof (is_finite_not_nan _ H) as Hn.
  unfold getMinMaxTemp, Math_min, Math_max.
  cbn [replicate min_from max_from]. rewrite (is_nan_false _ Hn).
  change (is_pos_zero infinity) with false.
  change (is_neg_zero neg_infinity) with false.
  rewrite !andb_false_r, (finite_ltb_infinity _ H),
    (neg_infinity_ltb_finite _ H).
  now rewrite (min_from_uniform _ _ Hn), (max_from_uniform _ _ Hn).
Qed.

(** When every cell of a frame has the same finite temperature, the scale
    has no width: each position is 0/0, and every cell gets the colour with
    red 255, blue 0 and a green channel that is NaN. *)
Theorem uniform_frame_has_nan_colour (c : float) (k : nat) :
  is_finite c = true ->
  cellColors (replicate (S k) c) = replicate (S k) (255, nan, 0).
Proof.
  intros H. unfold cellColors. rewrite (getMinMaxTemp_uniform _ _ H).
  assert (Hcell : getTemperatureColor (normalize c c c) = (255, nan, 0)).
  { unfold normalize. rewrite (sub_diag_finite _ H). reflexivity. }
  generalize (S k). intros j. induction j as [|j IH]; [reflexivity|].
  cbn [replicate map]. now rewrite Hcell, IH.
Qed.

(** An instance, with every hypothesis checked by evaluation. *)
Lemma uniform_frame_has_nan_colour_witness :
  is_finite 20 = true /\
  cellColors (replicate 3 20) = replicate 3 (255, nan, 0).
Proof.
  split; [reflexivity|]. apply (uniform_frame_has_nan_colour 20 2). reflexivity.
Defined.

(** *** The scale brackets the frame *)

Lemma min_from_below (values : list float) :
  forall lowest : float,
    not_nan lowest -> Forall not_nan values ->
    not_nan (min_from lowest values) /\
    (min_from lowest values <=? lowest) = true /\
    Forall (fun t => (min_from lowest values <=? t) = true) values.
Proof.
  induction values as [|number values IH]; intros lowest Hl Hall.
  - simpl. split; [exact Hl|]. split; [apply leb_refl, Hl|constructor].
  - inversion Hall as [|? ? Hn Hall']; subst. cbn [min_from].
    rewrite (is_nan_false _ Hn).
    set (lowest1 := if is_neg_zero number && is_pos_zero lowest
                    then neg_zero else lowest).
    assert (H1 : not_nan lowest1 /\ (lowest1 <=? lowest) = true).
    { unfold lowest1.
      destruct (is_neg_zero number && is_pos_zero lowest) eqn:E.
      - apply andb_prop in E as [_ E]. apply is_pos_zero_spec in E.
        split; [discriminate|]. eapply zeros_leb; [reflexivity|exact E].
      - split; [exact Hl|apply leb_refl, Hl]. }
    destruct H1 as [Hl1 Hle1].
    set (lowest2 := if number <? lowest1 then number else lowest1).
    assert (H2 : not_nan lowest2 /\ (lowest2 <=? lowest1) = true /\
                 (lowest2 <=? number) = true).
    { unfold lowest2. destruct (number <? lowest1) eqn:E.
      - split; [exact Hn|]. split; [apply ltb_leb, E|apply leb_refl, Hn].
      - split; [exact Hl1|]. split; [apply leb_refl, Hl1|].
        apply ltb_false_leb; assumption. }
    destruct H2 as (Hl2 & Hle2 & Hle2').
    destruct (IH lowest2 Hl2 Hall') as (HR & HRle & HRall).
    split; [exact HR|]. split.
    + exact (leb_trans _ _ _ HRle (leb_trans _ _ _ Hle2 Hle1)).
    + constructor; [|exact HRall]. exact (leb_trans _ _ _ HRle Hle2').
Qed.

Lemma max_from_above (values : list float) :
  forall highest : float,
    not_nan highest -> Forall not_nan values ->
    not_nan (max_from highest values) /\
    (highest <=? max_from highest values) = true /\
    Forall (fun t => (t <=? max_from highest values) = true) values.
Proof.
  induction values as [|number values IH]; intros highest Hh Hall.
  - simpl. split; [exact Hh|]. split; [apply leb_refl, Hh|constructor].
  - inversion Hall as [|? ? Hn Hall']; subst. cbn [max_from].
    rewrite (is_nan_false _ Hn).
    set (highest1 := if is_pos_zero number && is_neg_zero highest
                     then zero else highest).
    assert (H1 : not_nan highest1 /\ (highest <=? highest1) = true).
    { unfold highest1.
      destruct (is_pos_zero number && is_neg_zero highest) eqn:E.
      - apply andb_prop in E as [_ E]. apply is_neg_zero_spec in E.
        split; [discriminate|]. eapply zeros_leb; [exact E|reflexivity].
      - split; [exact Hh|apply leb_refl, Hh]. }
    destruct H1 as [Hh1 Hle1].
    set (highest2 := if highest1 <? number then number else highest1).
    assert (H2 : not_nan highest2 /\ (highest1 <=? highest2) = true /\
                 (number <=? highest2) = true).
    { unfold highest2. destruct (highest1 <? number) eqn:E.
      - split; [exact Hn|]. split; [apply ltb_leb, E|apply leb_refl, Hn].
      - split; [exact Hh1|]. split; [apply leb_refl, Hh1|].
        apply ltb_false_leb; assumption. }
    destruct H2 as (Hh2 & Hle2 & Hle2').
    destruct (IH highest2 Hh2 Hall') as (HR & HRle & HRall).
    split; [exact HR|]. split.
    + exact (leb_trans _ _ _ Hle1 (leb_trans _ _ _ Hle2 HRle)).
    + constructor; [|exact HRall]. exact (leb_trans _ _ _ Hle2' HRle).
Qed.

(** For a frame without NaN, the scale computed by [getMinMaxTemp] brackets
    every temperature of the frame: [minTemp <= t <= maxTemp]. *)
Theorem scale_brackets_frame (temps : list float) :
  Forall not_nan temps ->
  Forall (fun t =>
            (fst (getMinMaxTemp (Some temps)) <=? t) = true /\
            (t <=? snd (getMinMaxTemp (Some temps))) = true) temps.
Proof.
  intros Hall. cbn [getMinMaxTemp fst snd]. unfold Math_min, Math_max.
  assert (Hinf : not_nan infinity) by (vm_compute; discriminate).
  assert (Hninf : not_nan neg_infinity) by (vm_compute; discriminate).
  destruct (min_from_below temps infinity Hinf Hall) as (_ & _ & Hmin).
  destruct (max_from_above temps neg_infinity Hninf Hall) as (_ & _ & Hmax).
  rewrite Forall_forall in *. intros t Ht. split; auto.
Qed.

(** An instance, with every hypothesis checked by evaluation. *)
Lemma scale_brackets_frame_witness :
  let temps := [100; 51.5; -0; 0; 12] in
  Forall not_nan temps /\
  Forall (fun t =>
            (fst (getMinMaxTemp (Some temps)) <=? t) = true /\
            (t <=? snd (getMinMaxTemp (Some temps))) = true) temps.
Proof.
  intros temps.
  assert (H : Forall not_nan temps).
  { repeat constructor; vm_compute; discriminate. }
  split; [exact H|]. exact (scale_brackets_frame temps H).
Defined.

End HeatmapProofs.

(** ** lab01: further properties of [simulate] and of its handler *)

Module ProjectileExtra.
Import Go GoFacts Projectile ProjectileHandler ProjectileProofs.
Local Open Scope float_scope.

(** *** The trajectory as the orbit of the launch state *)

Lemma steps_iter (dt : float) (s : state) (k : nat) :
  steps (Nat.iter k (body dt) s) = (steps s + Z.of_nat k)%Z.
Proof.
  induction k as [|k IH]; [simpl; lia|].
  rewrite Nat.iter_succ, steps_body, IH. lia.
Qed.

Lemma trajectory_iter (dt : float) (s : state) (k : nat) :
  reverse (trajectory (Nat.iter k (body dt) s))
  = reverse (trajectory s)
      ++ map (fun i => point_of (Nat.iter i (body dt) s)) (seq 0 k).
Proof.
  induction k as [|k IH]; [simpl; now rewrite app_nil_r|].
  rewrite Nat.iter_succ, trajectory_body, reverse_cons, IH.
  rewrite seq_S, map_app, app_assoc. reflexivity.
Qed.

(** The loop is left in the [k]-th iterate of the body, the first one in
    which the guard fails or the counter has passed 1000000. *)
Lemma flight_orbit (dt : float) (fuel : nat) :
  forall s sf : state,
    flight fuel dt s = Some sf ->
    exists k : nat,
      sf = Nat.iter k (body dt) s /\
      (forall i : nat, (i < k)%nat ->
                       (0 <=? y (Nat.iter i (body dt) s)) = true).
Proof.
  induction fuel as [|fuel IH]; intros s sf; simpl; [discriminate|].
  destruct (0 <=? y s) eqn:Hy.
  - destruct (1000000 <? steps (body dt s))%Z.
    + intros [= <-]. exists 1%nat. split; [reflexivity|].
      intros i Hi. replace i with 0%nat by lia. exact Hy.
    + intros H. destruct (IH _ _ H) as (k & -> & Hk).
      exists (S k). split; [now rewrite Nat.iter_succ_r|].
      intros [|i] Hi; [exact Hy|].
      rewrite Nat.iter_succ_r. apply Hk. lia.
  - intros [= <-]. exists 0%nat. split; [reflexivity|]. intros; lia.
Qed.

(** The state in which the loop of [simulate] is left, in terms of the
    iterates of the loop body on the launch state. *)
Lemma landing_orbit (Cos Sin : float -> float) (req : SimulationRequest)
    (sf : state) :
  landing Cos Sin enough_fuel req = Some sf ->
  exists k : nat,
    let orbit := fun i => Nat.iter i (body (Dt req)) (launch Cos Sin req) in
    sf = orbit k /\
    steps sf = Z.of_nat k /\
    reverse (trajectory sf) = map (fun i => point_of (orbit i)) (seq 0 k) /\
    (forall i : nat, (i < k)%nat -> (0 <=? y (orbit i)) = true).
Proof.
  intros Hsf. destruct (flight_orbit _ _ _ _ Hsf) as (k & -> & Hk).
  exists k. cbn zeta. split; [reflexivity|].
  split; [rewrite steps_iter; simpl; lia|].
  split; [now rewrite trajectory_iter|exact Hk].
Qed.

(** The whole result is read off the orbit of the launch state under the
    loop body: the run makes [k] steps, where [k] is the first index at
    which the height fails [y >= 0] (or 1000001); the trajectory is the list
    of the states 0 .. k-1 and the result is taken from state [k]. *)
Theorem trajectory_is_orbit (Cos Sin : float -> float)
    (req : SimulationRequest) :
  exists k : nat,
    let orbit := fun i => Nat.iter i (body (Dt req)) (launch Cos Sin req) in
    simulate Cos Sin req = Some (respond (orbit k)) /\
    SimulationSteps (respond (orbit k)) = Z.of_nat k /\
    Trajectory (respond (orbit k)) = map (fun i => point_of (orbit i)) (seq 0 k) /\
    (forall i : nat, (i < k)%nat -> (0 <=? y (orbit i)) = true) /\
    ((0 <=? y (orbit k)) = false \/ Z.of_nat k = 1000001%Z).
Proof.
  destruct (landing_total Cos Sin req) as [sf Hsf].
  destruct (landing_orbit Cos Sin req sf Hsf) as (k & Hk & Hsteps & Htraj & Hup).
  cbn zeta in *. exists k. rewrite <- Hk. split.
  { unfold simulate, simulate_fuel. now rewrite Hsf. }
  split; [exact Hsteps|]. split; [exact Htraj|]. split; [exact Hup|].
  assert (Hstart : (steps (launch Cos Sin req) <= 1000000)%Z) by (simpl; lia).
  destruct (flight_exit _ _ _ _ Hstart Hsf) as [H|H]; [now left|].
  right. lia.
Qed.

(** A launch from [h0 >= 0] is recorded: the trajectory starts with the
    launch point [(0, h0)] at time 0 with the launch speed, and at least one
    step is counted. *)
Theorem launch_point_recorded (Cos Sin : float -> float)
    (req : SimulationRequest) :
  (0 <=? H0 req) = true ->
  exists resp rest,
    simulate Cos Sin req = Some resp /\
    Trajectory resp
    = {| X := 0; Y := H0 req; V := speed (launch Cos Sin req); T := 0 |}
        :: rest /\
    (1 <= SimulationSteps resp)%Z.
Proof.
  intros H0.
  destruct (landing_total Cos Sin req) as [sf Hsf].
  destruct (landing_orbit Cos Sin req sf Hsf) as (k & Hk & Hsteps & Htraj & _).
  cbn zeta in *. destruct k as [|k].
  - exfalso. unfold landing in Hsf.
    rewrite enough_fuel_S in Hsf. simpl in Hk. subst sf.
    assert (Hlaunch : steps (launch Cos Sin req) = 0%Z) by reflexivity.
    assert (Hstart : (steps (launch Cos Sin req) <= 1000000)%Z) by lia.
    destruct (flight_exit _ _ _ _ Hstart Hsf) as [H|H]; [|lia].
    simpl in H. congruence.
  - exists (respond sf), (map (fun i => point_of
                 (Nat.iter i (body (Dt req)) (launch Cos Sin req))) (seq 1 k)).
    split; [unfold simulate, simulate_fuel; now rewrite Hsf|].
    split; [|cbn [respond SimulationSteps]; lia].
    cbn [respond Trajectory]. rewrite Htraj. reflexivity.
Qed.

(** An instance, with every hypothesis checked by evaluation. *)
Lemma launch_point_recorded_witness :
  let req := mkRequest 50 0 2 0.1 in
  (0 <=? H0 req) = true /\
  exists resp rest,
    simulate Cos_at_0 Sin_at_0 req = Some resp /\
    Trajectory resp
    = {| X := 0; Y := H0 req; V := speed (launch Cos_at_0 Sin_at_0 req);
         T := 0 |} :: rest /\
    (1 <= SimulationSteps resp)%Z.
Proof.
  intros req. split; [reflexivity|].
  apply (launch_point_recorded Cos_at_0 Sin_at_0 req). reflexivity.
Defined.

(** *** The maximum height *)

(** The reported maximum height is never below the launch height (for a
    launch height that is a number). *)
Theorem max_height_not_below_start (Cos Sin : float -> float)
    (req : SimulationRequest) (resp : SimulationResponse) :
  simulate Cos Sin req = Some resp ->
  not_nan (H0 req) ->
  (H0 req <=? MaxHeight resp) = true.
Proof.
  unfold simulate, simulate_fuel.
  destruct (landing Cos Sin enough_fuel req) as [sf|] eqn:Hsf; [|discriminate].
  intros [= <-] Hn. cbn [respond MaxHeight].
  destruct (flight_orbit _ _ _ _ Hsf) as (k & Hk & _).
  pose proof (trajectory_iter (Dt req) (launch Cos Sin req) k) as Htraj.
  rewrite <- Hk in Htraj. cbn [launch trajectory] in Htraj.
  rewrite reverse_nil, app_nil_l in Htraj.
  destruct (flight_tracked _ _ _ _ (launch_tracked Cos Sin req) Hsf)
    as [[Hnil Hmax]|(_ & Hall & _)].
  - rewrite Hnil, reverse_nil in Htraj. destruct k as [|k]; [|discriminate].
    rewrite Hmax, Hk. simpl. apply leb_refl, Hn.
  - destruct k as [|k].
    + rewrite Hk. simpl. apply leb_refl, Hn.
    + apply Forall_reverse in Hall. rewrite Htraj in Hall.
      cbn [seq map] in Hall. inversion Hall as [|? ? Hfirst _]; subst.
      exact Hfirst.
Qed.

(** An instance, with every hypothesis checked by evaluation. *)
Lemma max_height_not_below_start_witness :
  let req := mkRequest 50 0 2 0.1 in
  exists resp,
    simulate Cos_at_0 Sin_at_0 req = Some resp /\
    not_nan (H0 req) /\
    (H0 req <=? MaxHeight resp) = true.
Proof.
  intros req.
  assert (H : exists resp, simulate Cos_at_0 Sin_at_0 req = Some resp).
  { eexists. vm_compute. reflexivity. }
  destruct H as (resp & Hsim).
  assert (Hn : not_nan (H0 req)) by (vm_compute; discriminate).
  exists resp. split; [exact Hsim|]. split; [exact Hn|].
  exact (max_height_not_below_start Cos_at_0 Sin_at_0 req resp Hsim Hn).
Defined.

(** *** The handler *)

(** For a request decoded from JSON, [simulate] gives a result, and a POST
    is answered from it exactly when [v0 > 0], [0 <= angle <= 90] and
    [dt > 0], and with status 400 otherwise; the launch height is not
    constrained.  The answer is the result when every number in it is
    finite, and an empty 200 when one is not. *)
Theorem handler_validation (Cos Sin : float -> float)
    (req : SimulationRequest) :
  decoded req ->
  exists result,
    simulate Cos Sin req = Some result /\
    simulateHandler Cos Sin "POST" (inr req)
    = Some (if (0 <? V0 req) && (0 <=? Angle req) && (Angle req <=? 90)
               && (0 <? Dt req)
            then if encodable result then Result result else Empty 200
            else ErrorText 400 "Invalid parameters").
Proof.
  intros (Hv & Ha & _ & Hd).
  apply is_finite_not_nan in Hv, Ha, Hd.
  assert (H0n : not_nan 0) by (vm_compute; discriminate).
  assert (H90 : not_nan 90) by (vm_compute; discriminate).
  destruct (landing_total Cos Sin req) as (s & Hland).
  exists (respond s).
  assert (Hsim : simulate Cos Sin req = Some (respond s)).
  { unfold simulate, simulate_fuel. now rewrite Hland. }
  split; [exact Hsim|].
  unfold simulateHandler. cbn [String.eqb Ascii.eqb Bool.eqb negb].
  rewrite (leb_negb_ltb _ _ Hv H0n), (ltb_negb_leb _ _ Ha H0n),
    (ltb_negb_leb _ _ H90 Ha), (leb_negb_ltb _ _ Hd H0n), Hsim.
  destruct (0 <? V0 req), (0 <=? Angle req), (Angle req <=? 90),
    (0 <? Dt req); reflexivity.
Qed.

(** Two instances, with every hypothesis checked by evaluation: a launch
    that is answered with its result, and one at a speed of 1e200, whose
    result holds an infinite final velocity and is answered with an empty
    200. *)
Lemma handler_validation_witness :
  let req := mkRequest 50 0 (-3) 0.01 in
  let fast := mkRequest 1e200 0 (-1) 0.01 in
  (decoded req /\
   exists result,
     simulate Cos_at_0 Sin_at_0 req = Some result /\
     simulateHandler Cos_at_0 Sin_at_0 "POST" (inr req)
     = Some (if (0 <? V0 req) && (0 <=? Angle req) && (Angle req <=? 90)
                && (0 <? Dt req)
             then if encodable result then Result result else Empty 200
             else ErrorText 400 "Invalid parameters")) /\
  (decoded fast /\
   (exists result,
     simulate Cos_at_0 Sin_at_0 fast = Some result /\
     simulateHandler Cos_at_0 Sin_at_0 "POST" (inr fast)
     = Some (if (0 <? V0 fast) && (0 <=? Angle fast) && (Angle fast <=? 90)
                && (0 <? Dt fast)
             then if encodable result then Result result else Empty 200
             else ErrorText 400 "Invalid parameters")) /\
   simulateHandler Cos_at_0 Sin_at_0 "POST" (inr fast) = Some (Empty 200)).
Proof.
  intros req fast.
  assert (H : decoded req) by (repeat split; reflexivity).
  assert (H' : decoded fast) by (repeat split; reflexivity).
  split; [|split; [|split]].
  - split; [exact H|]. exact (handler_validation Cos_at_0 Sin_at_0 req H).
  - exact H'.
  - exact (handler_validation Cos_at_0 Sin_at_0 fast H').
  - vm_compute. reflexivity.
Defined.

End ProjectileExtra.

(** ** lab02: further properties of the solver and of its handler *)

Module HeatExtra.
Import Go GoFacts Heat HeatHandler HeatProofs.
Local Open Scope float_scope.

(** *** When the run panics *)

(** Past the stability gate, the run ends in a panic when the grid has no
    cell, and when the runtime does not allocate a grid of the computed
    size. *)
Theorem run_panics_without_grid (int_oob : float -> Z)
    (allocates : Z -> bool) (format_f : float -> string)
    (params : SimulationParams) :
  (0.5 <? courant params) = false ->
  (grid_size int_oob params < 1)%Z
  \/ allocates (grid_size int_oob params) = false ->
  simulateHeatConduction int_oob allocates format_f params = Panic.
Proof. apply run_panics. Qed.

(** Two instances, with every hypothesis checked by evaluation: a grid
    without a cell, and one of [1e18 + 1] cells. *)
Lemma run_panics_without_grid_witness :
  let short := mkParams (-1) 0.01 1 1 20 100 0 1 in
  let long := mkParams 1e18 0.1 1 1 20 100 0 1 in
  ((0.5 <? courant short) = false /\
   (grid_size int_oob_amd64 short < 1)%Z /\
   simulateHeatConduction int_oob_amd64 allocates_amd64 format_f_stub short
   = Panic) /\
  ((0.5 <? courant long) = false /\
   allocates_amd64 (grid_size int_oob_amd64 long) = false /\
   simulateHeatConduction int_oob_amd64 allocates_amd64 format_f_stub long
   = Panic).
Proof.
  intros short long.
  assert (Hs : (grid_size int_oob_amd64 short < 1)%Z) by reflexivity.
  assert (Hl : allocates_amd64 (grid_size int_oob_amd64 long) = false)
    by reflexivity.
  split.
  - split; [reflexivity|]. split; [exact Hs|].
    exact (run_panics_without_grid int_oob_amd64 allocates_amd64 format_f_stub
             short eq_refl (or_introl Hs)).
  - split; [reflexivity|]. split; [exact Hl|].
    exact (run_panics_without_grid int_oob_amd64 allocates_amd64 format_f_stub
             long eq_refl (or_intror Hl)).
Defined.

(** *** The stable flag *)

(** When the Courant number is a number (not NaN), every frame returned
    has [stable = true]. *)
Theorem frames_stable_unless_nan (int_oob : float -> Z)
    (allocates : Z -> bool) (format_f : float -> string)
    (params : SimulationParams) (frames : list SimulationResult) :
  simulateHeatConduction int_oob allocates format_f params
  = Ret (frames, None) ->
  not_nan (courant params) ->
  Forall (fun frame => Stable frame = true) frames.
Proof.
  intros Hrun Hr.
  assert (Hle : (courant params <=? 0.5) = true).
  { apply ltb_false_leb; [vm_compute; discriminate|exact Hr|].
    unfold simulateHeatConduction in Hrun.
    destruct (0.5 <? courant params); [discriminate|reflexivity]. }
  eapply Forall_impl; [exact (frames_clamped_and_flagged _ _ _ _ _ Hrun)|].
  simpl. intros frame (_ & ->). exact Hle.
Qed.

(** An instance, with every hypothesis checked by evaluation. *)
Lemma frames_stable_unless_nan_witness :
  let params := mkParams 0.4 1 0.1 3 20 100 0 0.004 in
  exists frames,
    simulateHeatConduction int_oob_amd64 allocates_amd64 format_f_stub params
    = Ret (frames, None) /\
    not_nan (courant params) /\
    Forall (fun frame => Stable frame = true) frames.
Proof.
  intros params.
  assert (H : exists frames,
             simulateHeatConduction int_oob_amd64 allocates_amd64
               format_f_stub params = Ret (frames, None)).
  { eexists. vm_compute. reflexivity. }
  destruct H as (frames & Hrun).
  assert (Hr : not_nan (courant params)) by (vm_compute; discriminate).
  exists frames. split; [exact Hrun|]. split; [exact Hr|].
  exact (frames_stable_unless_nan int_oob_amd64 allocates_amd64 format_f_stub
           params frames Hrun Hr).
Defined.

(** *** What the frames show *)

(** Every frame returned is a snapshot: its centre temperature is the cell
    [n/2] of its own temperatures. *)
Lemma frames_are_snapshots (int_oob : float -> Z) (allocates : Z -> bool)
    (format_f : float -> string) (params : SimulationParams)
    (frames : list SimulationResult) :
  simulateHeatConduction int_oob allocates format_f params
  = Ret (frames, None) ->
  Forall (fun frame =>
            exists time,
              snapshot (courant params) (Z.quot (grid_size int_oob params) 2)
                (Temperatures frame) time = Ret frame) frames.
Proof.
  intros Hrun.
  destruct (run_returns _ _ _ _ _ Hrun)
    as (_ & _ & _ & s0 & final & first & rest & -> & _ & _ & Hsnap & _ & _
        & Hfr & _).
  constructor.
  - exists 0. destruct (snapshot_inv _ _ _ _ _ Hsnap) as (-> & _).
    exact Hsnap.
  - clear -Hfr.
    induction Hfr as [|step frame steps' frames' Hone _ IH]; constructor;
      [|exact IH].
    destruct Hone as (Tk & Tnewk & tk & _ & Hsnap). exists tk.
    destruct (snapshot_inv _ _ _ _ _ Hsnap) as (-> & _). exact Hsnap.
Qed.

(** In every frame returned, [centerTemp] is the entry at index [n/2]
    (integer division) of the frame's own temperatures. *)
Theorem center_is_middle_cell (int_oob : float -> Z) (allocates : Z -> bool)
    (format_f : float -> string) (params : SimulationParams)
    (frames : list SimulationResult) :
  simulateHeatConduction int_oob allocates format_f params
  = Ret (frames, None) ->
  Forall (fun frame =>
            Temperatures frame !! Z.to_nat (Z.quot (grid_size int_oob params) 2)
            = Some (CenterTemp frame)) frames.
Proof.
  intros Hrun.
  eapply Forall_impl; [exact (frames_are_snapshots _ _ _ _ _ Hrun)|].
  simpl. intros frame (time & Hsnap).
  now destruct (snapshot_inv _ _ _ _ _ Hsnap) as (_ & _ & _ & ?).
Qed.

(** An instance, with every hypothesis checked by evaluation. *)
Lemma center_is_middle_cell_witness :
  let params := mkParams 0.4 1 0.1 3 20 100 0 0.004 in
  exists frames,
    simulateHeatConduction int_oob_amd64 allocates_amd64 format_f_stub params
    = Ret (frames, None) /\
    Forall (fun frame =>
              Temperatures frame
                !! Z.to_nat (Z.quot (grid_size int_oob_amd64 params) 2)
              = Some (CenterTemp frame)) frames.
Proof.
  intros params.
  assert (H : exists frames,
             simulateHeatConduction int_oob_amd64 allocates_amd64
               format_f_stub params = Ret (frames, None)).
  { eexists. vm_compute. reflexivity. }
  destruct H as (frames & Hrun). exists frames. split; [exact Hrun|].
  exact (center_is_middle_cell int_oob_amd64 allocates_amd64 format_f_stub
           params frames Hrun).
Defined.

(** The first frame of a run that returned. *)
Lemma initial_frame_spec (int_oob : float -> Z) (allocates : Z -> bool)
    (format_f : float -> string) (params : SimulationParams)
    (frames : list SimulationResult) :
  simulateHeatConduction int_oob allocates format_f params
  = Ret (frames, None) ->
  exists first rest,
    frames = first :: rest /\
    Time first = 0 /\
    clamped params (grid_size int_oob params) (Temperatures first) /\
    (forall j : nat,
        (1 <= Z.of_nat j <= grid_size int_oob params - 2)%Z ->
        Temperatures first !! j = Some (InitialTemp params)).
Proof.
  intros Hrun.
  destruct (run_returns _ _ _ _ _ Hrun)
    as (_ & _ & _ & s0 & final & first & rest & -> & _ & _ & Hsnap & Hcl & _
        & _ & _ & _ & Hcells).
  exists first, rest. split; [reflexivity|].
  destruct (snapshot_inv _ _ _ _ _ Hsnap) as (-> & -> & _).
  auto.
Qed.

(** When a run on a grid of at least two cells returns, its first frame is
    the initial one: time 0, the boundary cells at the boundary
    temperatures and every interior cell at the initial temperature. *)
Theorem initial_frame_contents (int_oob : float -> Z)
    (allocates : Z -> bool) (format_f : float -> string)
    (params : SimulationParams) (frames : list SimulationResult) :
  (2 <= grid_size int_oob params)%Z ->
  simulateHeatConduction int_oob allocates format_f params
  = Ret (frames, None) ->
  exists first rest,
    frames = first :: rest /\
    Time first = 0 /\
    len (Temperatures first) = grid_size int_oob params /\
    Temperatures first !! 0%nat = Some (LeftBoundary params) /\
    Temperatures first !! Z.to_nat (grid_size int_oob params - 1)
    = Some (RightBoundary params) /\
    (forall j : nat,
        (1 <= Z.of_nat j <= grid_size int_oob params - 2)%Z ->
        Temperatures first !! j = Some (InitialTemp params)).
Proof.
  intros Hn Hrun.
  destruct (initial_frame_spec _ _ _ _ _ Hrun)
    as (first & rest & -> & Htime & (Hlen & Hright & Hleft) & Hint).
  exists first, rest. repeat split; auto.
Qed.

(** An instance, with every hypothesis checked by evaluation. *)
Lemma initial_frame_contents_witness :
  let params := mkParams 1 0.01 0.1 0.25 20 100 0 9.7e-5 in
  (2 <= grid_size int_oob_amd64 params)%Z /\
  exists frames,
    simulateHeatConduction int_oob_amd64 allocates_amd64 format_f_stub params
    = Ret (frames, None) /\
    exists first rest,
      frames = first :: rest /\
      Time first = 0 /\
      len (Temperatures first) = grid_size int_oob_amd64 params /\
      Temperatures first !! 0%nat = Some (LeftBoundary params) /\
      Temperatures first !! Z.to_nat (grid_size int_oob_amd64 params - 1)
      = Some (RightBoundary params) /\
      (forall j : nat,
          (1 <= Z.of_nat j <= grid_size int_oob_amd64 params - 2)%Z ->
          Temperatures first !! j = Some (InitialTemp params)).
Proof.
  intros params.
  assert (Hn : (2 <= grid_size int_oob_amd64 params)%Z)
    by (vm_compute; discriminate).
  assert (H : exists frames,
             simulateHeatConduction int_oob_amd64 allocates_amd64
               format_f_stub params = Ret (frames, None)).
  { eexists. vm_compute. reflexivity. }
  destruct H as (frames & Hrun).
  split; [exact Hn|]. exists frames. split; [exact Hrun|].
  exact (initial_frame_contents int_oob_amd64 allocates_amd64 format_f_stub
           params frames Hn Hrun).
Defined.

(** *** How many frames *)

(** Below the last loop counter, the sampled counters are the multiples of
    ten. *)
Lemma sampled_prefix_length (steps : Z) (k : nat) :
  (Z.of_nat k <= steps - 1)%Z ->
  length (sampled_steps steps 0 k) = Z.to_nat ((Z.of_nat k + 9) / 10).
Proof.
  unfold sampled_steps. induction k as [|k IH]; intros Hk; [reflexivity|].
  rewrite seqZ_S, filter_app, length_app, IH by lia.
  rewrite Z.add_0_l. cbn [filter list_filter].
  assert (Hs : sampled steps (Z.of_nat k) = (Z.rem (Z.of_nat k) 10 =? 0)%Z).
  { unfold sampled.
    replace (Z.of_nat k =? steps - 1)%Z with false
      by (symmetry; apply Z.eqb_neq; lia).
    apply orb_false_r. }
  rewrite Hs.
  destruct (Z.eqb_spec (Z.rem (Z.of_nat k) 10) 0) as [E|E]; case_decide;
    simpl in *; try tauto; Z.to_euclidean_division_equations; lia.
Qed.

Lemma sampled_steps_length (steps : Z) :
  (1 <= steps)%Z ->
  length (sampled_steps steps 0 (Z.to_nat steps))
  = Z.to_nat ((steps + 8) / 10 + 1).
Proof.
  intros Hs. replace (Z.to_nat steps) with (S (Z.to_nat (steps - 1))) by lia.
  pose proof (sampled_prefix_length steps (Z.to_nat (steps - 1)) ltac:(lia))
    as Hprefix.
  unfold sampled_steps in *.
  rewrite seqZ_S, filter_app, length_app, Hprefix.
  rewrite Z.add_0_l. cbn [filter list_filter].
  assert (Hlast : sampled steps (Z.of_nat (Z.to_nat (steps - 1))) = true).
  { unfold sampled.
    replace (Z.of_nat (Z.to_nat (steps - 1)) =? steps - 1)%Z with true
      by (symmetry; apply Z.eqb_eq; lia).
    apply orb_true_r. }
  rewrite Hlast. case_decide; simpl in *; [|tauto].
  rewrite Z2Nat.id by lia. Z.to_euclidean_division_equations. lia.
Qed.

(** A run that returns has produced the initial frame alone when the step
    count is not positive, and otherwise [2 + (steps + 8) / 10] frames. *)
Theorem frame_count (int_oob : float -> Z) (allocates : Z -> bool)
    (format_f : float -> string) (params : SimulationParams)
    (frames : list SimulationResult) :
  simulateHeatConduction int_oob allocates format_f params
  = Ret (frames, None) ->
  Z.of_nat (length frames)
  = if (step_count int_oob params <? 1)%Z then 1%Z
    else (2 + (step_count int_oob params + 8) / 10)%Z.
Proof.
  intros Hrun.
  destruct (run_returns _ _ _ _ _ Hrun)
    as (_ & _ & _ & s0 & final & first & rest & -> & _ & _ & _ & _ & _ & Hfr
        & _).
  apply Forall2_length in Hfr. cbn [length]. rewrite <- Hfr.
  destruct (Z.ltb_spec (step_count int_oob params) 1) as [Hs|Hs].
  - replace (Z.to_nat (step_count int_oob params)) with 0%nat by lia.
    reflexivity.
  - rewrite sampled_steps_length by lia.
    Z.to_euclidean_division_equations. lia.
Qed.

(** An instance, with every hypothesis checked by evaluation. *)
Lemma frame_count_witness :
  let params := mkParams 0.4 1 0.1 25 20 100 0 0.004 in
  exists frames,
    simulateHeatConduction int_oob_amd64 allocates_amd64 format_f_stub params
    = Ret (frames, None) /\
    Z.of_nat (length frames)
    = if (step_count int_oob_amd64 params <? 1)%Z then 1%Z
      else (2 + (step_count int_oob_amd64 params + 8) / 10)%Z.
Proof.
  intros params.
  assert (H : exists frames,
             simulateHeatConduction int_oob_amd64 allocates_amd64
               format_f_stub params = Ret (frames, None)).
  { eexists. vm_compute. reflexivity. }
  destruct H as (frames & Hrun). exists frames. split; [exact Hrun|].
  exact (frame_count int_oob_amd64 allocates_amd64 format_f_stub params
           frames Hrun).
Defined.

(** *** The last frame *)

Lemma sampled_steps_last (steps : Z) :
  (1 <= steps)%Z ->
  exists before,
    sampled_steps steps 0 (Z.to_nat steps) = before ++ [(steps - 1)%Z].
Proof.
  intros Hs. replace (Z.to_nat steps) with (S (Z.to_nat (steps - 1))) by lia.
  unfold sampled_steps. rewrite seqZ_S, filter_app.
  rewrite Z.add_0_l, Z2Nat.id by lia. cbn [filter list_filter].
  assert (Hlast : sampled steps (steps - 1) = true).
  { unfold sampled. rewrite Z.eqb_refl. apply orb_true_r. }
  rewrite Hlast. case_decide; simpl in *; [|tauto]. eauto.
Qed.

(** When a run of at least one step returns, its last frame shows the grid
    and the time after all [steps] passes of the time loop. *)
Theorem last_frame_is_final_state (int_oob : float -> Z)
    (allocates : Z -> bool) (format_f : float -> string)
    (params : SimulationParams) (frames : list SimulationResult) :
  let n := grid_size int_oob params in
  let steps := step_count int_oob params in
  (1 <= steps)%Z ->
  simulateHeatConduction int_oob allocates format_f params
  = Ret (frames, None) ->
  exists s0 final last_frame,
    initialize int_oob allocates params = Ret s0 /\
    integrate int_oob allocates params = Ret final /\
    last frames = Some last_frame /\
    updates params n (courant params) (Z.to_nat steps) (T s0) (Tnew s0) 0
    = Ret (T final, Tnew final, currentTime final) /\
    Temperatures last_frame = T final /\
    Time last_frame = currentTime final.
Proof.
  intros n steps Hs Hrun.
  destruct (run_returns _ _ _ _ _ Hrun)
    as (_ & _ & _ & s0 & final & first & rest & -> & Hinit & Hint & _ & _
        & Hupd & Hfr & _).
  fold n steps in Hupd, Hfr.
  destruct (sampled_steps_last steps Hs) as (before & Hlast).
  rewrite Hlast in Hfr.
  apply Forall2_app_inv_l in Hfr as (fr1 & fr2 & _ & Hone & ->).
  inversion Hone as [|? last_frame ? ? Hframe Hnil]; subst.
  inversion Hnil; subst.
  destruct Hframe as (Tk & Tnewk & tk & Hk & Hsnap).
  replace (S (Z.to_nat (steps - 1))) with (Z.to_nat steps) in Hk by lia.
  rewrite Hupd in Hk. injection Hk as <- <- <-.
  destruct (snapshot_inv _ _ _ _ _ Hsnap) as (HT & Htime & _).
  exists s0, final, last_frame.
  split; [exact Hinit|]. split; [exact Hint|].
  split; [|auto].
  rewrite app_comm_cons. apply last_snoc.
Qed.

(** An instance, with every hypothesis checked by evaluation. *)
Lemma last_frame_is_final_state_witness :
  let params := mkParams 0.4 1 0.1 25 20 100 0 0.004 in
  let n := grid_size int_oob_amd64 params in
  let steps := step_count int_oob_amd64 params in
  (1 <= steps)%Z /\
  exists frames,
    simulateHeatConduction int_oob_amd64 allocates_amd64 format_f_stub params
    = Ret (frames, None) /\
    exists s0 final last_frame,
      initialize int_oob_amd64 allocates_amd64 params = Ret s0 /\
      integrate int_oob_amd64 allocates_amd64 params = Ret final /\
      last frames = Some last_frame /\
      updates params n (courant params) (Z.to_nat steps) (T s0) (Tnew s0) 0
      = Ret (T final, Tnew final, currentTime final) /\
      Temperatures last_frame = T final /\
      Time last_frame = currentTime final.
Proof.
  intros params n steps.
  assert (Hs : (1 <= steps)%Z) by (vm_compute; discriminate).
  assert (H : exists frames,
             simulateHeatConduction int_oob_amd64 allocates_amd64
               format_f_stub params = Ret (frames, None)).
  { eexists. vm_compute. reflexivity. }
  destruct H as (frames & Hrun).
  split; [exact Hs|]. exists frames. split; [exact Hrun|].
  exact (last_frame_is_final_state int_oob_amd64 allocates_amd64 format_f_stub
           params frames Hs Hrun).
Defined.

(** *** A zero space step *)

(** With a space step equal to 0 the quotient [length/dx] is infinite or
    NaN, so the grid size is what the platform makes of an [int] conversion
    out of range; on amd64 it is negative, and the run never returns a
    frame: it fails at the stability gate, or panics in [make]. *)
Theorem zero_space_step_gives_no_frame (allocates : Z -> bool)
    (format_f : float -> string) (params : SimulationParams) :
  (SpaceStep params =? 0) = true ->
  simulateHeatConduction int_oob_amd64 allocates format_f params
  = if 0.5 <? courant params
    then Ret ([], Some (unstable format_f (courant params)))
    else Panic.
Proof.
  intros Hdx. unfold simulateHeatConduction.
  destruct (0.5 <? courant params); [reflexivity|].
  unfold integrate. rewrite initialize_panics; [reflexivity|].
  unfold grid_size, int_of_float64.
  pose proof (div_by_zero_not_finite (Length params) _ Hdx) as Hq.
  rewrite (Ceil_not_finite _ Hq), Hq. vm_compute. reflexivity.
Qed.

(** An instance, with every hypothesis checked by evaluation. *)
Lemma zero_space_step_gives_no_frame_witness :
  let params := mkParams 1 0 0 2 20 100 0 9.7e-5 in
  (SpaceStep params =? 0) = true /\
  simulateHeatConduction int_oob_amd64 allocates_amd64 format_f_stub params
  = if 0.5 <? courant params
    then Ret ([], Some (unstable format_f_stub (courant params)))
    else Panic.
Proof.
  intros params. split; [reflexivity|].
  apply (zero_space_step_gives_no_frame allocates_amd64 format_f_stub params).
  reflexivity.
Defined.

(** *** The defaults of the handler *)




End HeatExtra.
